(** * Pizarra de hospitalización: bed board over a published spreadsheet

    A shallow embedding of [app.py]: the loader [load_data], the bed
    arithmetic ([camas_ocupadas], [camas_libres]), the specialty counters
    ([hem_count], [onc_count]), the row style [estilo_simple], the patient
    table and the doctor table ([conteo]), followed by the properties the
    specification states about them.

    The program is a script over pandas.  The frame is modelled as pandas
    holds it after [read_csv]: named columns with a dtype, rows of cells that
    are NaN, a number or a text.  What the program leaves to the parsers
    and the sorting routine of pandas and to the Unicode tables of Python
    ([str.upper], [str.strip]) is gathered in the class [Pandas]; the
    theorems hold for every instance of it, the examples are run on the
    instance [Sample.pandas]. *)

From Stdlib Require Import ZArith QArith Ascii String List.
From stdpp Require Import base decidable option list sorting sets gmap strings pretty.

Local Open Scope Z_scope.

(** ** Python strings

    Texts are byte strings: a character of the ASCII range is one byte below
    128, every other character is written with bytes from 128 up.  This
    module has the string operations on the ASCII range, in which the words
    and labels of the program are written.  What [str.upper] and [str.strip]
    do on a text with other characters is left to the class [Pandas]
    below. *)

Module Py.

Definition is_lower (c : ascii) : bool :=
  let n := nat_of_ascii c in (Nat.leb 97 n && Nat.leb n 122)%bool.

Definition is_upper (c : ascii) : bool :=
  let n := nat_of_ascii c in (Nat.leb 65 n && Nat.leb n 90)%bool.

Definition upper_char (c : ascii) : ascii :=
  if is_lower c then ascii_of_nat (nat_of_ascii c - 32) else c.

Definition lower_char (c : ascii) : ascii :=
  if is_upper c then ascii_of_nat (nat_of_ascii c + 32) else c.

(** The white space of the ASCII range: TAB, LF, VT, FF, CR, FS, GS, RS, US
    and the space. *)
Definition is_space (c : ascii) : bool :=
  let n := nat_of_ascii c in
  ((Nat.leb 9 n && Nat.leb n 13) || (Nat.leb 28 n && Nat.leb n 32))%bool.

Fixpoint smap (f : ascii -> ascii) (s : string) : string :=
  match s with
  | EmptyString => EmptyString
  | String c s' => String (f c) (smap f s')
  end.

(** A text of ASCII characters only ([s.isascii()]). *)
Fixpoint is_ascii (s : string) : bool :=
  match s with
  | EmptyString => true
  | String c s' => (Nat.ltb (nat_of_ascii c) 128 && is_ascii s')%bool
  end.

(** The letters a to z turned into capitals, the letters A to Z into small
    letters; every other byte is kept.  On an ASCII text this is [s.upper()]
    and [s.lower()]. *)
Definition upper (s : string) : string := smap upper_char s.
Definition lower (s : string) : string := smap lower_char s.

(** The ASCII white space taken off the left end, the right end and both
    ends.  On an ASCII text this is [s.lstrip()], [s.rstrip()] and
    [s.strip()]. *)
Fixpoint lstrip (s : string) : string :=
  match s with
  | EmptyString => EmptyString
  | String c s' => if is_space c then lstrip s' else s
  end.

Fixpoint rstrip (s : string) : string :=
  match s with
  | EmptyString => EmptyString
  | String c s' =>
      match rstrip s' with
      | EmptyString => if is_space c then EmptyString else String c EmptyString
      | t => String c t
      end
  end.

Definition strip (s : string) : string := rstrip (lstrip s).

(** [sub in s] *)
Fixpoint contains (sub s : string) : bool :=
  (String.prefix sub s ||
   match s with
   | EmptyString => false
   | String _ s' => contains sub s'
   end)%bool.

(** [re.search(pat, s, re.IGNORECASE)] for a pattern without regular
    expression operators, which is what [str.contains(pat, case=False)] runs:
    both sides are compared in lower case.  The patterns of the program are
    HEM and ONC, letters that no character outside ASCII matches. *)
Definition search_nocase (pat s : string) : bool :=
  contains (lower pat) (lower s).

End Py.

(** ** Values, exceptions and frames *)

(** A float64 (or int64) value that is not NaN.  Finite values are exact
    rationals. *)
Inductive number : Type :=
  | Fin (q : Q)
  | PInf
  | NInf.

(** One cell of a frame. *)
Inductive cell : Type :=
  | NaN
  | Num (x : number)
  | Str (s : string).

(** The dtype of a column: [object] (texts and NaN) or numeric (int64 or
    float64).  Columns that [read_csv] types otherwise (booleans) are not
    modelled. *)
Inductive dtype : Type :=
  | dt_object
  | dt_numeric.

Inductive exn : Type :=
  | FetchError            (* anything [pd.read_csv] raises *)
  | KeyError
  | TypeError
  | ValueError
  | AttributeError
  | IntCastingNaNError.

Inductive result (A : Type) : Type :=
  | OK (a : A)
  | Raise (e : exn).
Arguments OK {A} a.
Arguments Raise {A} e.

(** Sequencing of statements that may raise: [x ← m; k] runs [k] unless [m]
    raised. *)
#[global] Instance result_bind : MBind result := fun A B k m =>
  match m with
  | OK a => k a
  | Raise e => Raise e
  end.

#[global] Instance result_ret : MRet result := fun A a => OK a.

Record DataFrame : Type := mkDataFrame {
  schema : list (string * dtype);
  rows : list (list cell)
}.

(** [df.columns] *)
Definition columns (df : DataFrame) : list string := (schema df).*1.

(** [pd.DataFrame()] *)
Definition empty_frame : DataFrame := mkDataFrame [] [].

(** [df.empty]: some axis has length zero. *)
Definition is_empty (df : DataFrame) : bool :=
  match schema df, rows df with
  | [], _ | _, [] => true
  | _, _ => false
  end.

(** [len(df)] *)
Definition len (df : DataFrame) : nat := length (rows df).

(** Positions of the columns carrying a label
    ([df.columns.get_indexer_for([name])]). *)
Fixpoint positions_from (i : nat) (name : string) (cs : list string) : list nat :=
  match cs with
  | [] => []
  | c :: cs' =>
      if String.eqb c name then i :: positions_from (S i) name cs'
      else positions_from (S i) name cs'
  end.

Definition positions (name : string) (df : DataFrame) : list nat :=
  positions_from 0 name (columns df).

(** [name in df.columns] *)
Definition has_column (name : string) (df : DataFrame) : bool :=
  match positions name df with
  | [] => false
  | _ => true
  end.

(** The cell of a row at a position; a row shorter than the header reads as
    NaN there. *)
Definition at_pos (j : nat) (r : list cell) : cell := default NaN (r !! j).

Definition isna (c : cell) : bool :=
  match c with
  | NaN => true
  | _ => false
  end.

(** A [Series]: the dtype and the values of one column. *)
Definition Series : Type := dtype * list cell.

(** [df[name]] where the program goes on with a Series method.  A missing
    label raises [KeyError]; a label carried by several columns selects a
    frame, on which [to_numeric], [.str], [.unique()] and the two-label
    assignment of [conteo.columns] raise. *)
Definition getitem (name : string) (df : DataFrame) (dup : exn) : result Series :=
  match positions name df with
  | [] => Raise KeyError
  | [j] =>
      OK (default dt_object ((schema df).*2 !! j), map (at_pos j) (rows df))
  | _ => Raise dup
  end.

(** ** What pandas and Python decide on their own

    The program hands texts to pandas' numeric reader, rows to its sorting
    routine and headers and triage texts to [str.strip] and [str.upper],
    which follow the Unicode tables.  Their exact behaviour is not written
    in [app.py]; the class records each of them as an operation together
    with what the library documents about it. *)

Class Pandas : Type := {
  (** [pd.to_numeric] on one text: the number read, [None] for a text that is
      not numeric (which [errors='coerce'] turns into NaN). *)
  str_to_number : string -> option number;
  (** [int(s)] on one text, as [astype(int)] applies it to an object column;
      [None] when it raises [ValueError]. *)
  str_to_int : string -> option Z;
  (** what the cast to int64 leaves for a finite float outside int64 *)
  cast_overflow : Q -> Z;
  (** [str(x)] of a number *)
  str_number : number -> string;
  (** [s.upper()] on any text.  It maps character by character, so a run of
      ASCII characters is turned into capitals where it stands, whatever the
      characters around it. *)
  str_upper : string -> string;
  str_upper_ascii : forall s, Py.is_ascii s = true -> str_upper s = Py.upper s;
  str_upper_within : forall pre m suf,
    Py.is_ascii m = true -> m <> EmptyString ->
    str_upper (pre +:+ m +:+ suf) = str_upper pre +:+ Py.upper m +:+ str_upper suf;
  (** Outside ASCII some characters have capitals in ASCII (the dotless i
      gives I, the long s gives S, a few ligatures give FF, FI, FL, ST), but
      none gives a V, E, R, D or O, and the J of the j with caron keeps its
      caron: the words VERDE and ROJO are found in an upper-cased text only
      where ASCII letters spell them. *)
  str_upper_words : forall w s,
    w = "VERDE"%string \/ w = "ROJO"%string ->
    Py.contains w (str_upper s) = true -> Py.contains w (Py.upper s) = true;
  (** a text in capitals is left as it is *)
  str_upper_idem : forall s, str_upper (str_upper s) = str_upper s;
  (** [s.strip()] on any text: the white space of Unicode is taken off both
      ends.  Upper-casing a text that has none at its ends gives it none. *)
  str_strip : string -> string;
  str_strip_ascii : forall s, Py.is_ascii s = true -> str_strip s = Py.strip s;
  str_strip_upper : forall s,
    str_strip (str_upper (str_strip s)) = str_upper (str_strip s);
  (** the sorting routine of [sort_values]: [sort_by le l] orders [l] by [le] *)
  sort_by : forall A : Type, (A -> A -> bool) -> list A -> list A;
  sort_by_perm : forall A (le : A -> A -> bool) (l : list A),
    sort_by A le l ≡ₚ l;
  sort_by_sorted : forall A (le : A -> A -> bool) (l : list A),
    (forall x y, le x y = true \/ le y x = true) ->
    (forall x y z, le x y = true -> le y z = true -> le x z = true) ->
    StronglySorted (fun x y => le x y = true) (sort_by A le l)
}.
Arguments sort_by {_} {A} le l.


(** ** CARGA DE DATOS *)

Section Load.
Context `{Pandas}.

(** [rename_map] *)
Definition rename_map (c : string) : string :=
  if String.eqb c "ESTANCIA HOSPITALARIA" then "ESTANCIA"
  else if String.eqb c "INGRESO POR" then "MOTIVO"
  else if String.eqb c "FECHA DE INGRESO" then "INGRESO"
  else c.

(** [df.columns = df.columns.str.strip().str.upper()] followed by
    [df.rename(columns=rename_map, inplace=True)] *)
Definition clean_columns (df : DataFrame) : DataFrame :=
  mkDataFrame
    (map (fun ct => (rename_map (str_upper (str_strip ct.1)), ct.2)) (schema df))
    (rows df).

(** [df.dropna(subset=[name])]: a row stays when none of its cells under the
    label is NaN. *)
Definition dropna_subset (name : string) (df : DataFrame) : DataFrame :=
  mkDataFrame (schema df)
    (filter (fun r => forallb (fun j => negb (isna (at_pos j r))) (positions name df) = true)
            (rows df)).

(** [pd.to_numeric(_, errors='coerce')] on one cell *)
Definition to_numeric (c : cell) : cell :=
  match c with
  | Str s =>
      match str_to_number s with
      | Some x => Num x
      | None => NaN
      end
  | _ => c
  end.

(** [df[name] = pd.to_numeric(df[name], errors='coerce')].  Under a label
    carried by several columns [df[name]] is a frame, which [to_numeric]
    refuses with [TypeError]. *)
Definition coerce_column (name : string) (df : DataFrame) : result DataFrame :=
  match positions name df with
  | [j] =>
      OK (mkDataFrame
            (alter (fun ct => (ct.1, dt_numeric)) j (schema df))
            (map (alter to_numeric j) (rows df)))
  | _ => Raise TypeError
  end.

(** The header cleaned and the rows without a patient dropped:
    [if 'PACIENTE' in df.columns: df = df.dropna(subset=['PACIENTE'])]. *)
Definition after_dropna (df0 : DataFrame) : DataFrame :=
  let df := clean_columns df0 in
  if has_column "PACIENTE" df then dropna_subset "PACIENTE" df else df.

(** The body of the [try] block, given what [pd.read_csv(url)] did. *)
Definition load_body (csv : result DataFrame) : result DataFrame :=
  df ← csv;
  let df := after_dropna df in
  if has_column "CAMA" df then coerce_column "CAMA" df else OK df.

(** [load_data]: [except Exception] answers every exception of the body
    with an empty frame. *)
Definition load_data (csv : result DataFrame) : DataFrame :=
  match load_body csv with
  | OK df => df
  | Raise _ => empty_frame
  end.

End Load.

(** ** INTERFAZ: the computations of the page *)

(** [df[mask]] for a boolean mask *)
Fixpoint boolean_index (mask : list bool) (rs : list (list cell)) : list (list cell) :=
  match mask, rs with
  | b :: mask', r :: rs' =>
      if b then r :: boolean_index mask' rs' else boolean_index mask' rs'
  | _, _ => []
  end.

(** [s.str.contains(pat, case=False, na=False)].  The [.str] accessor exists
    on object columns only; a cell that is not a text answers [na]. *)
Definition str_contains (pat : string) (s : Series) : result (list bool) :=
  match s.1 with
  | dt_numeric => Raise AttributeError
  | dt_object =>
      OK (map (fun c => match c with
                        | Str t => Py.search_nocase pat t
                        | _ => false
                        end) s.2)
  end.

(** [len(df[df['ESP'].str.contains(pat, case=False, na=False)])] *)
Definition esp_count (pat : string) (df : DataFrame) : result nat :=
  s ← getitem "ESP" df AttributeError;
  mask ← str_contains pat s;
  OK (length (boolean_index mask (rows df))).

Definition hem_count : DataFrame -> result nat := esp_count "HEM".
Definition onc_count : DataFrame -> result nat := esp_count "ONC".

(** [set(range(621, 643))] *)
Definition rango_camas : gset Z := list_to_set (seqZ 621 22).

(** Truncation toward zero, the float to integer cast. *)
Definition trunc (q : Q) : Z := Z.quot (Qnum q) (Zpos (Qden q)).

Definition fits_int64 (z : Z) : bool :=
  ((- 2 ^ 63 <=? z) && (z <? 2 ^ 63))%bool.

(** [sorted(xs)] on integers *)
Definition sorted (xs : list Z) : list Z := merge_sort Z.le xs.

(** [row.get(key, '')] leaves [None] for the default. *)
Fixpoint row_get (key : string) (row : list (string * cell)) : option cell :=
  match row with
  | [] => None
  | (k, v) :: row' => if String.eqb k key then Some v else row_get key row'
  end.

Definition cols_wanted : list string :=
  ["CAMA"; "ESP"; "PACIENTE"; "EVAT"; "MOTIVO"; "ESTANCIA"; "MEDICO"].

(** [cols = [c for c in [...] if c in df.columns]] *)
Definition cols (df : DataFrame) : list string :=
  filter (fun c => has_column c df = true) cols_wanted.

Definition Qleb_number (x y : number) : bool :=
  match x, y with
  | NInf, _ => true
  | _, PInf => true
  | Fin a, Fin b => Qle_bool a b
  | _, _ => false
  end.

(** [<=] between two sort keys of one kind *)
Definition cell_leb (a b : cell) : bool :=
  match a, b with
  | Num x, Num y => Qleb_number x y
  | Str s, Str t => String.leb s t
  | _, _ => false
  end.

Definition is_num (c : cell) : bool :=
  match c with
  | Num _ => true
  | _ => false
  end.

Definition is_str (c : cell) : bool :=
  match c with
  | Str _ => true
  | _ => false
  end.

(** [==] between two values that are not NaN *)
Definition cell_eqb (a b : cell) : bool :=
  match a, b with
  | Num (Fin p), Num (Fin q) => Qeq_bool p q
  | Num PInf, Num PInf => true
  | Num NInf, Num NInf => true
  | Str s, Str t => String.eqb s t
  | _, _ => false
  end.

(** One more occurrence of a value in the table of counts, which keeps the
    values in the order of their first occurrence. *)
Fixpoint bump (c : cell) (acc : list (cell * nat)) : list (cell * nat) :=
  match acc with
  | [] => [(c, 1%nat)]
  | (k, n) :: acc' =>
      if cell_eqb k c then (k, S n) :: acc' else (k, n) :: bump c acc'
  end.

(** NaN is not counted ([dropna=True], the default of [value_counts]). *)
Definition tally_step (acc : list (cell * nat)) (c : cell) : list (cell * nat) :=
  if isna c then acc else bump c acc.

(** The occurrences of each value that is not NaN. *)
Definition tally (vs : list cell) : list (cell * nat) :=
  fold_left tally_step vs [].

(** [df_sorted[cols]]: the columns under the labels, in the order of the
    labels. *)
Definition select (labels : list string) (df : DataFrame) : DataFrame :=
  let ps := flat_map (fun c => positions c df) labels in
  mkDataFrame
    (omap (fun j => schema df !! j) ps)
    (map (fun r => map (fun j => at_pos j r) ps) (rows df)).

(** A row as the Series that [Styler.apply(_, axis=1)] passes. *)
Definition as_row (df : DataFrame) (r : list cell) : list (string * cell) :=
  zip (columns df) r.

Section Board.
Context `{Pandas}.

(** [int(x)] on one value, as [astype(int)] does it *)
Definition astype_int (c : cell) : result Z :=
  match c with
  | NaN => Raise IntCastingNaNError
  | Num (Fin q) => OK (if fits_int64 (trunc q) then trunc q else cast_overflow q)
  | Num _ => Raise IntCastingNaNError
  | Str s =>
      match str_to_int s with
      | Some z => OK z
      | None => Raise ValueError
      end
  end.

Fixpoint astype_int_all (vs : list cell) : result (list Z) :=
  match vs with
  | [] => OK []
  | v :: vs' =>
      z ← astype_int v;
      zs ← astype_int_all vs';
      OK (z :: zs)
  end.

(** [set(df['CAMA'].dropna().astype(int).unique())] *)
Definition camas_ocupadas (df : DataFrame) : result (gset Z) :=
  s ← getitem "CAMA" df AttributeError;
  zs ← astype_int_all (filter (fun c => isna c = false) s.2);
  OK (list_to_set zs).

(** [sorted(list(rango_camas - camas_ocupadas))] *)
Definition camas_libres (df : DataFrame) : result (list Z) :=
  ocupadas ← camas_ocupadas df;
  OK (sorted (elements (rango_camas ∖ ocupadas))).

(** [str(v)] of what [row.get] returned *)
Definition py_str (v : option cell) : string :=
  match v with
  | None => ""
  | Some NaN => "nan"
  | Some (Num x) => str_number x
  | Some (Str s) => s
  end.

(** [str(row.get('EVAT', ''))], the text in which [estilo_simple] looks for
    the colour words. *)
Definition evat_text (row : list (string * cell)) : string :=
  py_str (row_get "EVAT" row).

(** The background that [estilo_simple] picks. *)
Definition bg_color (row : list (string * cell)) : string :=
  let esp := str_upper (evat_text row) in
  if Py.contains "VERDE" esp then "#e8f5e9"
  else if Py.contains "ROJO" esp then "#fce4ec"
  else if Py.contains "AMARILLO" esp then "#fffde7"
  else "white".

Definition estilo_simple (row : list (string * cell)) : list string :=
  map (fun _ => "background-color: " +:+ bg_color row +:+ "; color: black") row.

(** [df.sort_values(by=name)]: the rows with a key in the order of the keys,
    then the rows whose key is NaN.  Keys of two kinds cannot be compared. *)
Definition sort_values (name : string) (df : DataFrame) : result DataFrame :=
  match positions name df with
  | [] => Raise KeyError
  | [j] =>
      let keyed := filter (fun r => isna (at_pos j r) = false) (rows df) in
      let nans := filter (fun r => isna (at_pos j r) = true) (rows df) in
      if (forallb (fun r => is_num (at_pos j r)) keyed
          || forallb (fun r => is_str (at_pos j r)) keyed)%bool
      then OK (mkDataFrame (schema df)
                 (sort_by (fun r1 r2 => cell_leb (at_pos j r1) (at_pos j r2)) keyed
                  ++ nans))
      else Raise TypeError
  | _ => Raise ValueError
  end.

(** [df_sorted[cols].style.apply(estilo_simple, axis=1)]: each row with its
    styles.  The Styler refuses labels that are not unique. *)
Definition tabla_pacientes (df : DataFrame)
  : result (list (list (string * cell) * list string)) :=
  df_sorted ← sort_values "CAMA" df;
  let shown := select (cols df) df_sorted in
  if bool_decide (NoDup (columns shown))
  then OK (map (fun r => (as_row shown r, estilo_simple (as_row shown r))) (rows shown))
  else Raise KeyError.

(** [s.value_counts()]: the counts of the values that are not NaN, largest
    first. *)
Definition value_counts (s : Series) : list (cell * nat) :=
  sort_by (fun a b => Nat.leb b.2 a.2) (tally s.2).

(** [conteo] with the scale of the progress column,
    [int(conteo['Total'].max()) + 2]; the maximum of no count is NaN, on which
    [int] raises.  [None] stands for the warning shown without a MEDICO
    column. *)
Definition tabla_medicos (df : DataFrame)
  : result (option (list (cell * nat) * Z)) :=
  if has_column "MEDICO" df then
    s ← getitem "MEDICO" df ValueError;
    let conteo := value_counts s in
    match conteo with
    | [] => Raise ValueError
    | _ => OK (Some (conteo, Z.of_nat (max_list conteo.*2) + 2))
    end
  else OK None.

End Board.

(** ** The script

    Streamlit runs the script top to bottom; what was drawn before an
    exception stays on the page.  A run is the list of elements drawn and how
    the script ended.  Layout, style sheet and display formats are left
    out. *)

Inductive widget : Type :=
  | title (text : string)
  | metric (label : string) (value : nat) (total : option nat)
  | free_beds (beds : list Z)
  | error (text : string)
  | divider
  | subheader (text : string)
  | dataframe_pacientes (t : list (list (string * cell) * list string))
  | dataframe_medicos (conteo : list (cell * nat)) (max_value : Z)
  | warning (text : string).

Definition Script (A : Type) : Type := list widget * result A.

#[global] Instance script_bind : MBind Script := fun A B k m =>
  match m with
  | (ws, OK a) => let (ws', r) := k a in (ws ++ ws', r)
  | (ws, Raise e) => (ws, Raise e)
  end.

#[global] Instance script_ret : MRet Script := fun A a => ([], OK a).

(** Draw one element. *)
Definition st (w : widget) : Script unit := ([w], OK tt).

(** Evaluate an expression that may raise. *)
Definition eval {A} (m : result A) : Script A := ([], m).

Section App.
Context `{Pandas}.

Definition interfaz (df : DataFrame) : Script unit :=
  if is_empty df then st (warning "No hay datos para mostrar.")
  else
    let total_pacientes := len df in
    hem ← eval (hem_count df);
    onc ← eval (onc_count df);
    camas_libres ← eval (camas_libres df);
    _ ← st (title "Gestión de Camas");
    _ ← st (metric "Total Pacientes" total_pacientes None);
    _ ← st (metric "Hematología (HEM)" hem None);
    _ ← st (metric "Oncología (ONC)" onc None);
    _ ← st (metric "Camas Disponibles" (length camas_libres) (Some (size rango_camas)));
    _ ← (match camas_libres with
         | [] => st (error "SIN CAMAS: El servicio está lleno (620-642 ocupadas).")
         | _ => st (free_beds camas_libres)
         end);
    _ ← st divider;
    _ ← st (subheader "Detalle de Pacientes");
    t ← eval (tabla_pacientes df);
    _ ← st (dataframe_pacientes t);
    _ ← st (subheader "Pacientes por Médico");
    m ← eval (tabla_medicos df);
    match m with
    | Some (conteo, max_value) => st (dataframe_medicos conteo max_value)
    | None => st (warning "No se encontró columna MEDICO")
    end.

(** The whole script: [df = load_data()] and the page. *)
Definition app (csv : result DataFrame) : Script unit :=
  interfaz (load_data csv).

End App.

(** ** The words of the specification *)

(** Two characters are the same letter when they are equal or the two cases
    of one of the letters A to Z. *)
Inductive same_letter : ascii -> ascii -> Prop :=
  | same_char c : same_letter c c
  | upper_lower a b :
      (65 <= nat_of_ascii a <= 90)%nat ->
      nat_of_ascii b = (nat_of_ascii a + 32)%nat ->
      same_letter a b
  | lower_upper a b :
      (65 <= nat_of_ascii b <= 90)%nat ->
      nat_of_ascii a = (nat_of_ascii b + 32)%nat ->
      same_letter a b.

Inductive same_text : string -> string -> Prop :=
  | same_empty : same_text EmptyString EmptyString
  | same_String a b s t :
      same_letter a b -> same_text s t -> same_text (String a s) (String b t).

(** [s] contains [pat], matched case-insensitively. *)
Definition occurs_nocase (pat s : string) : Prop :=
  exists pre mid suf, s = pre +:+ mid +:+ suf /\ same_text mid pat.

(** The number of elements of a list that satisfy a property. *)
Inductive counts {A} (P : A -> Prop) : list A -> nat -> Prop :=
  | counts_nil : counts P [] 0
  | counts_yes x l n : P x -> counts P l n -> counts P (x :: l) (S n)
  | counts_no x l n : ~ P x -> counts P l n -> counts P (x :: l) n.

(** The specialty field of a row, read at the position of the ESP column,
    contains the substring without regard to case. *)
Definition esp_contains (pat : string) (j : nat) (r : list cell) : Prop :=
  exists t, at_pos j r = Str t /\ occurs_nocase pat t.

(** The patient name of a row is present: the row has a PACIENTE cell that
    is not NaN. *)
Definition has_patient_name (df : DataFrame) (r : list cell) : Prop :=
  exists j, j ∈ positions "PACIENTE" df /\ at_pos j r <> NaN.

(** A sheet lacks the columns the page expects. *)
Definition lacks_expected_columns `{Pandas} (df0 : DataFrame) : Prop :=
  exists c, c ∈ cols_wanted /\ has_column c (clean_columns df0) = false.

(** The row of the patient table drawn for a row of the frame. *)
Definition shown_row (df : DataFrame) (r : list cell) : list (string * cell) :=
  as_row (select (cols df) df)
         (map (fun i => at_pos i r) (flat_map (fun c => positions c df) (cols df))).

(** The frame without the rows that have no bed. *)
Definition with_bed (j : nat) (df : DataFrame) : DataFrame :=
  mkDataFrame (schema df) (filter (fun r => isna (at_pos j r) = false) (rows df)).




(** Keys of a table of counts: none is NaN, no two are equal. *)
Inductive distinct_keys : list (cell * nat) -> Prop :=
  | distinct_nil : distinct_keys []
  | distinct_cons k n acc :
      isna k = false ->
      Forall (fun kn => cell_eqb k kn.1 = false) acc ->
      distinct_keys acc ->
      distinct_keys ((k, n) :: acc).


(** A text that does not begin with a blank. *)
Definition starts_clean (s : string) : Prop :=
  match s with
  | EmptyString => True
  | String c _ => Py.is_space c = false
  end.

(** ** Example sheets *)

(** The three specialties of the scenario. *)
Definition esp_table : DataFrame :=
  mkDataFrame [("ESP", dt_object); ("PACIENTE", dt_object)]
    [[Str "HEM-A"; Str "Ana"]; [Str "onc"; Str "Luis"]; [Str "CARDIO"; Str "Eva"]].

(** A sheet as [read_csv] returns it, with one patient in bed 700. *)
Definition csv_bed_700 : DataFrame :=
  mkDataFrame [("CAMA", dt_numeric); ("ESP", dt_object); ("PACIENTE", dt_object)]
    [[Num (Fin 700); Str "ONC"; Str "Ana"]].

(** A sheet as [read_csv] returns it when a bed cell reads [inf]. *)
Definition csv_bed_inf : DataFrame :=
  mkDataFrame [("CAMA", dt_numeric); ("ESP", dt_object); ("PACIENTE", dt_object)]
    [[Num PInf; Str "ONC"; Str "Ana"]].

(** Two columns that are both CAMA once the header is cleaned. *)
Definition csv_con_CAMA_repetida : DataFrame :=
  mkDataFrame [("Cama", dt_numeric); ("CAMA ", dt_numeric); ("PACIENTE", dt_object)]
    [[Num (Fin 621); Num (Fin 621); Str "Ana"]].

(** A sheet whose only column is none of the expected ones. *)
Definition csv_otro_esquema : DataFrame :=
  mkDataFrame [("NOMBRE", dt_object)] [[Str "Ana"]].

(** A sheet in which the second row has no patient. *)
Definition csv_con_paciente_vacio : DataFrame :=
  mkDataFrame [("CAMA", dt_numeric); ("Paciente", dt_object)]
    [[Num (Fin 621); Str "Ana"]; [Num (Fin 622); NaN]].

(** A sheet without a PACIENTE column. *)
Definition csv_sin_paciente : DataFrame :=
  mkDataFrame [("CAMA", dt_numeric); ("ESP", dt_object)]
    [[Num (Fin 621); Str "HEM"]].

(** A bed column read as texts: one number, one word. *)
Definition csv_cama_texto : DataFrame :=
  mkDataFrame [("Cama", dt_object); ("ESP", dt_object); ("Paciente", dt_object)]
    [[Str "621"; Str "HEM"; Str "Ana"]; [Str "pendiente"; Str "ONC"; Str "Luis"]].



(** A sheet in which no row names a specialty: [read_csv] types a column
    of empty cells as numeric. *)
Definition csv_esp_vacia : DataFrame :=
  mkDataFrame [("CAMA", dt_numeric); ("ESP", dt_numeric); ("PACIENTE", dt_object)]
    [[Num (Fin 621); NaN; Str "Ana"]; [Num (Fin 622); NaN; Str "Luis"]].

(** A sheet without an ESP column, in which one patient has no bed. *)
Definition csv_sin_esp : DataFrame :=
  mkDataFrame [("CAMA", dt_numeric); ("PACIENTE", dt_object)]
    [[Num (Fin 621); Str "Ana"]; [NaN; Str "Luis"]].

(** A sheet whose only row has no patient. *)
Definition csv_sin_pacientes : DataFrame :=
  mkDataFrame [("CAMA", dt_numeric); ("PACIENTE", dt_object)] [[Num (Fin 621); NaN]].

(** A sheet in which no row names a doctor. *)
Definition csv_sin_medicos : DataFrame :=
  mkDataFrame [("CAMA", dt_numeric); ("ESP", dt_object); ("PACIENTE", dt_object);
               ("MEDICO", dt_object)]
    [[Num (Fin 621); Str "HEM"; Str "Ana"; NaN]].

(** ** Facts on Python strings *)

Lemma nat_of_ascii_inj a b : nat_of_ascii a = nat_of_ascii b -> a = b.
Proof.
  intros E. rewrite <- (ascii_nat_embedding a), <- (ascii_nat_embedding b).
  now rewrite E.
Qed.

Lemma nat_of_lower_char c :
  nat_of_ascii (Py.lower_char c) =
  if Py.is_upper c then (nat_of_ascii c + 32)%nat else nat_of_ascii c.
Proof.
  unfold Py.lower_char. destruct (Py.is_upper c) eqn:E; [|reflexivity].
  unfold Py.is_upper in E. apply andb_prop in E as [_ E2].
  apply Nat.leb_le in E2. apply nat_ascii_embedding. lia.
Qed.

Lemma nat_of_upper_char c :
  nat_of_ascii (Py.upper_char c) =
  if Py.is_lower c then (nat_of_ascii c - 32)%nat else nat_of_ascii c.
Proof.
  unfold Py.upper_char. destruct (Py.is_lower c) eqn:E; [|reflexivity].
  unfold Py.is_lower in E. apply andb_prop in E as [_ E2].
  apply Nat.leb_le in E2. apply nat_ascii_embedding. lia.
Qed.

Lemma is_upper_spec c :
  Py.is_upper c = true <-> (65 <= nat_of_ascii c <= 90)%nat.
Proof.
  unfold Py.is_upper. rewrite andb_true_iff, !Nat.leb_le. reflexivity.
Qed.

Lemma is_lower_spec c :
  Py.is_lower c = true <-> (97 <= nat_of_ascii c <= 122)%nat.
Proof.
  unfold Py.is_lower. rewrite andb_true_iff, !Nat.leb_le. reflexivity.
Qed.

Ltac case_letters :=
  repeat match goal with
  | |- context [Py.is_upper ?c] =>
      let E := fresh "E" in
      destruct (Py.is_upper c) eqn:E;
      [apply is_upper_spec in E
      |apply not_true_iff_false in E; rewrite is_upper_spec in E]
  | |- context [Py.is_lower ?c] =>
      let E := fresh "E" in
      destruct (Py.is_lower c) eqn:E;
      [apply is_lower_spec in E
      |apply not_true_iff_false in E; rewrite is_lower_spec in E]
  end.

Lemma same_letter_lower a b :
  same_letter a b <-> Py.lower_char a = Py.lower_char b.
Proof.
  split.
  - intros Hs. apply nat_of_ascii_inj. rewrite !nat_of_lower_char.
    destruct Hs as [c|a b Ha Hb|a b Ha Hb]; [reflexivity| |]; case_letters; lia.
  - intros E. apply (f_equal nat_of_ascii) in E. rewrite !nat_of_lower_char in E.
    revert E. case_letters; intros Hn;
      first [ assert (nat_of_ascii a = nat_of_ascii b) as Hn' by lia;
              apply nat_of_ascii_inj in Hn'; subst; constructor
            | apply upper_lower; lia
            | apply lower_upper; lia ].
Qed.

Lemma same_letter_upper a b :
  same_letter a b <-> Py.upper_char a = Py.upper_char b.
Proof.
  split.
  - intros Hs. apply nat_of_ascii_inj. rewrite !nat_of_upper_char.
    destruct Hs as [c|a b Ha Hb|a b Ha Hb]; [reflexivity| |]; case_letters; lia.
  - intros E. apply (f_equal nat_of_ascii) in E. rewrite !nat_of_upper_char in E.
    revert E. case_letters; intros Hn;
      first [ assert (nat_of_ascii a = nat_of_ascii b) as Hn' by lia;
              apply nat_of_ascii_inj in Hn'; subst; constructor
            | apply upper_lower; lia
            | apply lower_upper; lia ].
Qed.

Lemma append_String c s t : String c s +:+ t = String c (s +:+ t).
Proof. reflexivity. Qed.

Lemma prefix_spec sub s :
  String.prefix sub s = true <-> exists suf, s = sub +:+ suf.
Proof.
  revert s. induction sub as [|a sub IH]; intros s.
  - split; [intros _; exists s; reflexivity | intros _; destruct s; reflexivity].
  - destruct s as [|b s]; simpl.
    + split; [discriminate | intros [suf E]; discriminate].
    + setoid_rewrite append_String.
      destruct (ascii_dec a b) as [->|Hne].
      * rewrite IH. split; intros [suf E]; exists suf; congruence.
      * split; [discriminate | intros [suf E]; congruence].
Qed.

Lemma contains_String sub c s :
  Py.contains sub (String c s) =
  (String.prefix sub (String c s) || Py.contains sub s)%bool.
Proof. reflexivity. Qed.

Lemma contains_Empty sub :
  Py.contains sub EmptyString = (String.prefix sub EmptyString || false)%bool.
Proof. reflexivity. Qed.

Lemma contains_spec sub s :
  Py.contains sub s = true <-> exists pre suf, s = pre +:+ sub +:+ suf.
Proof.
  induction s as [|c s IH];
    [rewrite contains_Empty | rewrite contains_String];
    rewrite orb_true_iff, prefix_spec.
  - split.
    + intros [[suf E]|?]; [|discriminate]. exists EmptyString, suf. exact E.
    + intros (pre & suf & E). left.
      destruct pre; [exists suf; exact E | rewrite append_String in E; discriminate].
  - rewrite IH. split.
    + intros [[suf E]|(pre & suf & E)].
      * exists EmptyString, suf. exact E.
      * exists (String c pre), suf. rewrite append_String. now rewrite E.
    + intros (pre & suf & E). destruct pre as [|p pre].
      * left. exists suf. exact E.
      * right. exists pre, suf. rewrite append_String in E. congruence.
Qed.

Section Smap.
Variable f : ascii -> ascii.
Hypothesis f_same : forall a b, same_letter a b <-> f a = f b.

Lemma smap_app s t : Py.smap f (s +:+ t) = Py.smap f s +:+ Py.smap f t.
Proof.
  induction s as [|c s IH]; [reflexivity|].
  rewrite append_String. simpl. now rewrite IH.
Qed.

Lemma smap_app_inv s x y :
  Py.smap f s = x +:+ y ->
  exists s1 s2, s = s1 +:+ s2 /\ Py.smap f s1 = x /\ Py.smap f s2 = y.
Proof.
  revert s. induction x as [|a x IH]; intros s E.
  - exists EmptyString, s. auto.
  - rewrite append_String in E.
    destruct s as [|c s]; simpl in E; [discriminate|].
    injection E as Ea Es. destruct (IH _ Es) as (s1 & s2 & -> & E1 & E2).
    exists (String c s1), s2. simpl. rewrite E1, Ea. auto.
Qed.

Lemma same_text_smap s t : same_text s t <-> Py.smap f s = Py.smap f t.
Proof.
  split.
  - induction 1 as [|a b s t Hab _ IH]; simpl; [reflexivity|].
    apply f_same in Hab. now rewrite Hab, IH.
  - revert t. induction s as [|a s IH]; intros [|b t] E; simpl in E;
      try discriminate; [constructor|].
    injection E as Eab Est. constructor; [now apply f_same | now apply IH].
Qed.

Lemma contains_smap pat s :
  Py.contains (Py.smap f pat) (Py.smap f s) = true <-> occurs_nocase pat s.
Proof.
  rewrite contains_spec. unfold occurs_nocase. split.
  - intros (x & z & E).
    apply smap_app_inv in E as (pre & rest & -> & _ & E).
    apply smap_app_inv in E as (mid & suf & -> & E & _).
    exists pre, mid, suf. split; [reflexivity | now apply same_text_smap].
  - intros (pre & mid & suf & -> & Hm). apply same_text_smap in Hm.
    exists (Py.smap f pre), (Py.smap f suf). now rewrite !smap_app, Hm.
Qed.

End Smap.

(** The search that [str.contains(pat, case=False)] runs finds exactly the
    occurrences without regard to case. *)
Lemma search_nocase_spec pat s :
  Py.search_nocase pat s = true <-> occurs_nocase pat s.
Proof. apply contains_smap, same_letter_lower. Qed.

(** So does [PAT in s.upper()] for a pattern in capitals. *)
Lemma contains_upper_spec pat s :
  Py.upper pat = pat ->
  Py.contains pat (Py.upper s) = true <-> occurs_nocase pat s.
Proof.
  intros E. rewrite <- E at 1. apply contains_smap, same_letter_upper.
Qed.

Lemma is_lower_upper_char c : Py.is_lower (Py.upper_char c) = false.
Proof.
  apply not_true_iff_false. rewrite is_lower_spec, nat_of_upper_char.
  destruct (Py.is_lower c) eqn:E.
  - apply is_lower_spec in E. lia.
  - apply not_true_iff_false in E. rewrite is_lower_spec in E. lia.
Qed.

Lemma upper_char_idem c : Py.upper_char (Py.upper_char c) = Py.upper_char c.
Proof. unfold Py.upper_char at 1. now rewrite is_lower_upper_char. Qed.

Lemma is_space_upper_char c : Py.is_space (Py.upper_char c) = Py.is_space c.
Proof.
  unfold Py.is_space. rewrite nat_of_upper_char.
  destruct (Py.is_lower c) eqn:E; [|reflexivity].
  apply is_lower_spec in E.
  repeat match goal with
         | |- context [Nat.leb ?a ?b] => destruct (Nat.leb_spec a b)
         end; simpl; try reflexivity; lia.
Qed.

Lemma upper_idem s : Py.upper (Py.upper s) = Py.upper s.
Proof.
  unfold Py.upper. induction s as [|c s IH]; [reflexivity|].
  simpl. now rewrite upper_char_idem, IH.
Qed.

Lemma lstrip_upper s : Py.lstrip (Py.upper s) = Py.upper (Py.lstrip s).
Proof.
  unfold Py.upper. induction s as [|c s IH]; [reflexivity|].
  simpl. rewrite is_space_upper_char. destruct (Py.is_space c); [exact IH|reflexivity].
Qed.

Lemma rstrip_upper s : Py.rstrip (Py.upper s) = Py.upper (Py.rstrip s).
Proof.
  unfold Py.upper. induction s as [|c s IH]; [reflexivity|].
  simpl. rewrite IH, is_space_upper_char.
  destruct (Py.rstrip s); simpl; [destruct (Py.is_space c)|]; reflexivity.
Qed.

Lemma strip_upper s : Py.strip (Py.upper s) = Py.upper (Py.strip s).
Proof. unfold Py.strip. now rewrite lstrip_upper, rstrip_upper. Qed.

Lemma rstrip_idem s : Py.rstrip (Py.rstrip s) = Py.rstrip s.
Proof.
  induction s as [|c s IH]; [reflexivity|]. simpl.
  destruct (Py.rstrip s) as [|d t] eqn:E.
  - destruct (Py.is_space c) eqn:Ec; [reflexivity|]. simpl. now rewrite Ec.
  - change (Py.rstrip (String c (String d t))) with
      (match Py.rstrip (String d t) with
       | EmptyString => if Py.is_space c then EmptyString else String c EmptyString
       | u => String c u
       end).
    now rewrite IH.
Qed.

Lemma lstrip_starts_clean s : starts_clean (Py.lstrip s).
Proof.
  induction s as [|c s IH]; [exact I|]. simpl.
  destruct (Py.is_space c) eqn:E; [exact IH | exact E].
Qed.

Lemma lstrip_clean s : starts_clean s -> Py.lstrip s = s.
Proof. destruct s as [|c s]; [reflexivity|]. simpl. now intros ->. Qed.

Lemma rstrip_starts_clean s : starts_clean s -> starts_clean (Py.rstrip s).
Proof.
  destruct s as [|c s]; [auto|]. simpl. intros Ec.
  destruct (Py.rstrip s); [now rewrite Ec | exact Ec].
Qed.

Lemma strip_idem s : Py.strip (Py.strip s) = Py.strip s.
Proof.
  unfold Py.strip.
  rewrite (lstrip_clean (Py.rstrip (Py.lstrip s)))
    by apply rstrip_starts_clean, lstrip_starts_clean.
  apply rstrip_idem.
Qed.

(** Texts of ASCII characters. *)
Lemma is_ascii_String c s :
  Py.is_ascii (String c s) = true <->
  (nat_of_ascii c < 128)%nat /\ Py.is_ascii s = true.
Proof. simpl. now rewrite andb_true_iff, Nat.ltb_lt. Qed.

Lemma is_ascii_app s t :
  Py.is_ascii (s +:+ t) = true <-> Py.is_ascii s = true /\ Py.is_ascii t = true.
Proof.
  induction s as [|c s IH]; [simpl; tauto|].
  rewrite append_String, !is_ascii_String, IH. tauto.
Qed.

Lemma same_letter_ascii a b :
  same_letter a b -> (nat_of_ascii b < 128)%nat -> (nat_of_ascii a < 128)%nat.
Proof. destruct 1; lia. Qed.

Lemma same_text_ascii s t :
  same_text s t -> Py.is_ascii t = true -> Py.is_ascii s = true.
Proof.
  induction 1 as [|a b s t Hab _ IH]; [auto|].
  rewrite !is_ascii_String. intros [Hb Ht].
  split; [exact (same_letter_ascii _ _ Hab Hb) | auto].
Qed.

Lemma is_ascii_lstrip s : Py.is_ascii s = true -> Py.is_ascii (Py.lstrip s) = true.
Proof.
  induction s as [|c s IH]; [auto|]. intros E. simpl.
  destruct (Py.is_space c); [|exact E]. apply is_ascii_String in E as [_ E]. auto.
Qed.

Lemma is_ascii_rstrip s : Py.is_ascii s = true -> Py.is_ascii (Py.rstrip s) = true.
Proof.
  induction s as [|c s IH]; [auto|]. intros E.
  apply is_ascii_String in E as [Hc E]. specialize (IH E). simpl.
  destruct (Py.rstrip s).
  - destruct (Py.is_space c); [reflexivity|]. now apply is_ascii_String.
  - now apply is_ascii_String.
Qed.

Lemma is_ascii_strip s : Py.is_ascii s = true -> Py.is_ascii (Py.strip s) = true.
Proof. intros E. now apply is_ascii_rstrip, is_ascii_lstrip. Qed.

(** ** A library to run the model on

    One instance of [Pandas] for evaluating the definitions on concrete
    tables: it reads and prints whole numbers written in decimal digits,
    sorts by insertion, which keeps equal elements in their order, and knows
    the letters and the white space of ASCII only.  It backs the examples
    only. *)

Module Sample.

Fixpoint read_digits (s : string) (acc : Z) : option Z :=
  match s with
  | EmptyString => Some acc
  | String c s' =>
      match Ascii.is_nat c with
      | Some d => read_digits s' (10 * acc + Z.of_nat d)
      | None => None
      end
  end.

Definition read_whole (s : string) : option Z :=
  match s with
  | EmptyString => None
  | _ => read_digits s 0
  end.

Definition show_number (x : number) : string :=
  match x with
  | Fin q => pretty (trunc q) +:+ ".0"
  | PInf => "inf"
  | NInf => "-inf"
  end.

(** [x] put before the first element that is not below it. *)
Fixpoint insert_by {A} (le : A -> A -> bool) (x : A) (l : list A) : list A :=
  match l with
  | [] => [x]
  | y :: l' => if le x y then x :: l else y :: insert_by le x l'
  end.

Definition sort_stable {A} (le : A -> A -> bool) (l : list A) : list A :=
  foldr (insert_by le) [] l.

Lemma insert_by_perm A (le : A -> A -> bool) x l : insert_by le x l ≡ₚ x :: l.
Proof.
  induction l as [|y l IH]; [reflexivity|]. simpl.
  destruct (le x y); [reflexivity|]. rewrite IH. apply perm_swap.
Qed.

Lemma sort_stable_perm A (le : A -> A -> bool) (l : list A) : sort_stable le l ≡ₚ l.
Proof.
  induction l as [|x l IH]; [reflexivity|].
  unfold sort_stable in *. simpl. now rewrite insert_by_perm, IH.
Qed.

Lemma insert_by_sorted A (le : A -> A -> bool) x l :
  (forall x y, le x y = true \/ le y x = true) ->
  (forall x y z, le x y = true -> le y z = true -> le x z = true) ->
  StronglySorted (fun x y => le x y = true) l ->
  StronglySorted (fun x y => le x y = true) (insert_by le x l).
Proof.
  intros Htot Htrans. induction 1 as [|y l Hs IH Hall]; simpl.
  - repeat constructor.
  - destruct (le x y) eqn:E.
    + constructor; [now constructor|]. constructor; [exact E|].
      eapply Forall_impl; [exact Hall|]. intros z Hz. now apply (Htrans x y z).
    + constructor; [exact IH|]. rewrite insert_by_perm. constructor; [|exact Hall].
      destruct (Htot x y) as [E'|E']; [congruence | exact E'].
Qed.

Lemma sort_stable_sorted A (le : A -> A -> bool) (l : list A) :
  (forall x y, le x y = true \/ le y x = true) ->
  (forall x y z, le x y = true -> le y z = true -> le x z = true) ->
  StronglySorted (fun x y => le x y = true) (sort_stable le l).
Proof.
  intros Htot Htrans. induction l as [|x l IH]; [constructor|].
  now apply insert_by_sorted.
Qed.

Lemma upper_within pre m suf :
  Py.is_ascii m = true -> m <> EmptyString ->
  Py.upper (pre +:+ m +:+ suf) = Py.upper pre +:+ Py.upper m +:+ Py.upper suf.
Proof. intros _ _. unfold Py.upper. now rewrite !smap_app. Qed.

Lemma strip_upper_strip s :
  Py.strip (Py.upper (Py.strip s)) = Py.upper (Py.strip s).
Proof. now rewrite strip_upper, strip_idem. Qed.

Definition pandas : Pandas := {|
  str_to_number := fun s => (fun z => Fin (inject_Z z)) <$> read_whole s;
  str_to_int := read_whole;
  cast_overflow := fun _ => - 2 ^ 63;
  str_number := show_number;
  str_upper := Py.upper;
  str_upper_ascii := fun s _ => eq_refl;
  str_upper_within := upper_within;
  str_upper_words := fun w s _ E => E;
  str_upper_idem := upper_idem;
  str_strip := Py.strip;
  str_strip_ascii := fun s _ => eq_refl;
  str_strip_upper := strip_upper_strip;
  sort_by := @sort_stable;
  sort_by_perm := sort_stable_perm;
  sort_by_sorted := sort_stable_sorted
|}.



End Sample.

(** ** Headers of ASCII characters *)

Lemma clean_name_ascii `{Pandas} c :
  Py.is_ascii c = true -> str_upper (str_strip c) = Py.upper (Py.strip c).
Proof.
  intros E. rewrite (str_strip_ascii _ E).
  apply str_upper_ascii. now apply is_ascii_strip.
Qed.

(** A header of ASCII characters is cleaned as the ASCII operations clean
    it. *)
Lemma clean_columns_ascii `{Pandas} df :
  Forall (fun c => Py.is_ascii c = true) (columns df) ->
  clean_columns df =
    mkDataFrame
      (map (fun ct => (rename_map (Py.upper (Py.strip ct.1)), ct.2)) (schema df))
      (rows df).
Proof.
  unfold clean_columns, columns. intros Hall. f_equal.
  induction (schema df) as [|[c t] l IH]; [reflexivity|].
  apply Forall_cons in Hall as [Hc Hall]. simpl in *.
  now rewrite (clean_name_ascii _ Hc), IH.
Qed.

Lemma load_data_read `{Pandas} df0 :
  load_data (OK df0) =
    match (let df := after_dropna df0 in
           if has_column "CAMA" df then coerce_column "CAMA" df else OK df) with
    | OK df => df
    | Raise _ => empty_frame
    end.
Proof. reflexivity. Qed.

(** ** Specialty counters *)

Lemma boolean_index_map (f : list cell -> bool) rs :
  boolean_index (map f rs) rs = filter (fun r => f r = true) rs.
Proof.
  induction rs as [|r rs IH]; [reflexivity|]. simpl.
  rewrite filter_cons. destruct (f r) eqn:E.
  - rewrite decide_True by reflexivity. now rewrite IH.
  - rewrite decide_False by discriminate. exact IH.
Qed.

Lemma counts_filter {A} (P : A -> Prop) (f : A -> bool) l :
  (forall x, P x <-> f x = true) ->
  counts P l (length (filter (fun x => f x = true) l)).
Proof.
  intros Hf. induction l as [|x l IH]; [constructor|].
  rewrite filter_cons. destruct (f x) eqn:E.
  - rewrite decide_True by reflexivity. simpl. constructor; [now apply Hf | exact IH].
  - rewrite decide_False by discriminate. apply counts_no; [|exact IH].
    rewrite Hf, E. discriminate.
Qed.

Lemma getitem_OK name df dup s :
  getitem name df dup = OK s ->
  exists j, positions name df = [j] /\
            s.1 = default dt_object ((schema df).*2 !! j) /\
            s.2 = map (at_pos j) (rows df).
Proof.
  unfold getitem. destruct (positions name df) as [|j [|? ?]]; try discriminate.
  intros [= <-]. exists j. auto.
Qed.

Lemma esp_count_OK pat df n :
  esp_count pat df = OK n ->
  exists j, positions "ESP" df = [j] /\
    n = length (filter (fun r => match at_pos j r with
                                 | Str t => Py.search_nocase pat t
                                 | _ => false
                                 end = true) (rows df)).
Proof.
  unfold esp_count. intros Hn.
  destruct (getitem "ESP" df AttributeError) as [s|e] eqn:Eg; [|discriminate].
  apply getitem_OK in Eg as (j & Ej & Ed & Ev). exists j. split; [exact Ej|].
  revert Hn. cbn. unfold str_contains. destruct s.1; cbn; [|discriminate].
  intros [= <-]. rewrite Ev, map_map. now rewrite boolean_index_map.
Qed.

Lemma esp_count_total pat df j :
  positions "ESP" df = [j] ->
  (schema df).*2 !! j = Some dt_object ->
  exists n, esp_count pat df = OK n.
Proof.
  intros Ej Ed. unfold esp_count, getitem. rewrite Ej, Ed. cbn. eauto.
Qed.

Lemma esp_count_numeric pat df j :
  positions "ESP" df = [j] ->
  (schema df).*2 !! j = Some dt_numeric ->
  esp_count pat df = Raise AttributeError.
Proof.
  intros Ej Ed. unfold esp_count, getitem. rewrite Ej, Ed. reflexivity.
Qed.

(** The count, when there is one, is the number of rows whose specialty
    contains the substring in whatever case. *)
Lemma esp_count_counts pat df n :
  esp_count pat df = OK n ->
  exists j, positions "ESP" df = [j] /\ counts (esp_contains pat j) (rows df) n.
Proof.
  intros Hn. apply esp_count_OK in Hn as (j & Ej & ->).
  exists j. split; [exact Ej|]. apply counts_filter.
  intros r. unfold esp_contains. split.
  - intros (t & -> & Ho). now apply search_nocase_spec.
  - destruct (at_pos j r) as [|x|t]; try discriminate.
    intros Hs. exists t. split; [reflexivity | now apply search_nocase_spec].
Qed.

Lemma counts_none {A} (P : A -> Prop) (l : list A) :
  (forall x, x ∈ l -> ~ P x) -> counts P l 0.
Proof.
  induction l as [|x l IH]; intros Hall; [constructor|].
  apply counts_no; [apply Hall; constructor|].
  apply IH. intros y Hy. apply Hall. now constructor.
Qed.

(** C7: [hem_count] and [onc_count], when they return, are the numbers of
    rows whose specialty contains HEM, or ONC, in whatever case, and they
    return when the table has one ESP column of texts: with the specialties
    "HEM-A", "onc" and "CARDIO" they are 1 and 1.  On a table whose one ESP
    column is numeric they raise [AttributeError]: such is the loaded table
    of a sheet whose specialty cells are all empty, in which no row contains
    either word, and for which the page stays blank. *)
Theorem esp_count_raises_without_specialty_text :
  (forall df n,
     hem_count df = OK n ->
     exists j, positions "ESP" df = [j] /\ counts (esp_contains "HEM" j) (rows df) n) /\
  (forall df n,
     onc_count df = OK n ->
     exists j, positions "ESP" df = [j] /\ counts (esp_contains "ONC" j) (rows df) n) /\
  (forall df j,
     positions "ESP" df = [j] -> (schema df).*2 !! j = Some dt_object ->
     (exists h o, hem_count df = OK h /\ onc_count df = OK o) /\
     (map (at_pos j) (rows df) = [Str "HEM-A"; Str "onc"; Str "CARDIO"] ->
      hem_count df = OK 1%nat /\ onc_count df = OK 1%nat)) /\
  (forall df j,
     positions "ESP" df = [j] -> (schema df).*2 !! j = Some dt_numeric ->
     hem_count df = Raise AttributeError /\ onc_count df = Raise AttributeError) /\
  (forall P : Pandas,
     let df := @load_data P (OK csv_esp_vacia) in
     df = csv_esp_vacia /\
     positions "ESP" df = [1%nat] /\
     counts (esp_contains "HEM" 1) (rows df) 0 /\
     counts (esp_contains "ONC" 1) (rows df) 0 /\
     hem_count df = Raise AttributeError /\
     onc_count df = Raise AttributeError /\
     @app P (OK csv_esp_vacia) = ([], Raise AttributeError)).
Proof.
  split; [|split; [|split; [|split]]].
  - intros df n. apply esp_count_counts.
  - intros df n. apply esp_count_counts.
  - intros df j Ej Ed. split.
    + destruct (esp_count_total "HEM" df j Ej Ed) as [h Hh].
      destruct (esp_count_total "ONC" df j Ej Ed) as [o Ho]. eauto.
    + intros Ev. unfold hem_count, onc_count, esp_count, getitem.
      rewrite Ej, Ed. cbn. rewrite Ev.
      destruct (rows df) as [|r1 [|r2 [|r3 [|? ?]]]]; try discriminate.
      split; reflexivity.
  - intros df j Ej Ed. split; now apply (esp_count_numeric _ df j).
  - intros P.
    assert (@load_data P (OK csv_esp_vacia) = csv_esp_vacia) as El.
    { rewrite load_data_read. unfold after_dropna.
      rewrite clean_columns_ascii by (repeat constructor). reflexivity. }
    cbv zeta. unfold app. rewrite El.
    assert (forall pat, counts (esp_contains pat 1) (rows csv_esp_vacia) 0) as Hnone.
    { intros pat. apply counts_none. intros r Hr (t & Et & _).
      apply list_elem_of_In in Hr. simpl in Hr.
      destruct Hr as [<-|[<-|[]]]; discriminate. }
    repeat split; apply Hnone.
Qed.

Lemma esp_count_raises_without_specialty_text_witness :
  hem_count esp_table = OK 1%nat /\
  onc_count esp_table = OK 1%nat /\
  (exists j, positions "ESP" esp_table = [j] /\
             counts (esp_contains "HEM" j) (rows esp_table) 1) /\
  hem_count csv_esp_vacia = Raise AttributeError.
Proof.
  destruct esp_count_raises_without_specialty_text as (Hhem & _ & Htext & Hnum & _).
  destruct (Htext esp_table 0%nat eq_refl eq_refl) as [_ Hscen].
  destruct (Hscen eq_refl) as [Hh Ho].
  split; [exact Hh|]. split; [exact Ho|]. split; [exact (Hhem esp_table 1%nat Hh)|].
  exact (proj1 (Hnum csv_esp_vacia 1%nat eq_refl eq_refl)).
Defined.

(** ** Row display classification *)

Section Estilo.
Context `{Pandas}.

(** A word in ASCII capitals that occurs in a text, in whatever case, occurs
    in the upper-cased text. *)
Lemma str_upper_finds w s :
  Py.is_ascii w = true -> w <> EmptyString -> Py.upper w = w ->
  occurs_nocase w s -> Py.contains w (str_upper s) = true.
Proof.
  intros Ha Hne Eu (pre & mid & suf & -> & Hm).
  assert (Py.is_ascii mid = true) as Hmid by exact (same_text_ascii _ _ Hm Ha).
  assert (mid <> EmptyString) as Hmne by (intros ->; inversion Hm; congruence).
  rewrite (str_upper_within pre mid suf Hmid Hmne).
  apply (same_text_smap Py.upper_char same_letter_upper) in Hm.
  fold (Py.upper mid) (Py.upper w) in Hm. rewrite Hm, Eu.
  apply contains_spec. eauto.
Qed.

Lemma str_upper_VERDE s :
  Py.contains "VERDE" (str_upper s) = true <-> occurs_nocase "VERDE" s.
Proof.
  split.
  - intros E. apply (str_upper_words "VERDE") in E; [|now left].
    now apply contains_upper_spec in E.
  - now apply str_upper_finds.
Qed.

Lemma str_upper_ROJO s :
  Py.contains "ROJO" (str_upper s) = true <-> occurs_nocase "ROJO" s.
Proof.
  split.
  - intros E. apply (str_upper_words "ROJO") in E; [|now right].
    now apply contains_upper_spec in E.
  - now apply str_upper_finds.
Qed.

Lemma bg_color_verde row :
  occurs_nocase "VERDE" (evat_text row) -> bg_color row = "#e8f5e9".
Proof. intros Hv. apply str_upper_VERDE in Hv. unfold bg_color. now rewrite Hv. Qed.

Lemma bg_color_rojo row :
  ~ occurs_nocase "VERDE" (evat_text row) ->
  occurs_nocase "ROJO" (evat_text row) -> bg_color row = "#fce4ec".
Proof.
  intros Hv Hr. rewrite <- str_upper_VERDE, not_true_iff_false in Hv.
  apply str_upper_ROJO in Hr. unfold bg_color. now rewrite Hv, Hr.
Qed.



(** On a text of ASCII characters the choice is the one of the ASCII
    capitals. *)
Lemma bg_color_ascii row :
  Py.is_ascii (evat_text row) = true ->
  bg_color row =
    if Py.contains "VERDE" (Py.upper (evat_text row)) then "#e8f5e9"
    else if Py.contains "ROJO" (Py.upper (evat_text row)) then "#fce4ec"
    else if Py.contains "AMARILLO" (Py.upper (evat_text row)) then "#fffde7"
    else "white".
Proof. intros E. unfold bg_color. now rewrite (str_upper_ascii _ E). Qed.

Lemma bg_color_of_text row s :
  row_get "EVAT" row = Some (Str s) ->
  Py.is_ascii s = true ->
  bg_color row =
    if Py.contains "VERDE" (Py.upper s) then "#e8f5e9"
    else if Py.contains "ROJO" (Py.upper s) then "#fce4ec"
    else if Py.contains "AMARILLO" (Py.upper s) then "#fffde7"
    else "white".
Proof.
  intros E Ha. rewrite bg_color_ascii; unfold evat_text; rewrite E; [reflexivity | exact Ha].
Qed.



(** C10: one background per row, with a fixed precedence when several colour
    words occur: VERDE wins over ROJO and AMARILLO, ROJO wins over
    AMARILLO. *)
Theorem estilo_simple_precedence (row : list (string * cell)) :
  (occurs_nocase "VERDE" (evat_text row) ->
   occurs_nocase "ROJO" (evat_text row) \/ occurs_nocase "AMARILLO" (evat_text row) ->
   bg_color row = "#e8f5e9") /\
  (occurs_nocase "ROJO" (evat_text row) ->
   occurs_nocase "AMARILLO" (evat_text row) ->
   ~ occurs_nocase "VERDE" (evat_text row) ->
   bg_color row = "#fce4ec") /\
  (bg_color row = "#fce4ec" -> ~ occurs_nocase "VERDE" (evat_text row)) /\
  (bg_color row = "#fffde7" ->
   ~ occurs_nocase "VERDE" (evat_text row) /\ ~ occurs_nocase "ROJO" (evat_text row)) /\
  (row_get "EVAT" row = Some (Str "rojo y verde") -> bg_color row = "#e8f5e9") /\
  (row_get "EVAT" row = Some (Str "Amarillo/Rojo") -> bg_color row = "#fce4ec").
Proof.
  split; [|split; [|split; [|split; [|split]]]].
  - intros Hv _. now apply bg_color_verde.
  - intros Hr _ Hv. now apply bg_color_rojo.
  - intros E Hv. apply bg_color_verde in Hv. rewrite Hv in E. discriminate.
  - intros E. split.
    + intros Hv. apply bg_color_verde in Hv. rewrite Hv in E. discriminate.
    + intros Hr. destruct (Py.contains "VERDE" (str_upper (evat_text row))) eqn:Ev.
      * apply str_upper_VERDE, bg_color_verde in Ev. rewrite Ev in E. discriminate.
      * rewrite <- not_true_iff_false, str_upper_VERDE in Ev.
        rewrite (bg_color_rojo _ Ev Hr) in E. discriminate.
  - intros E. now rewrite (bg_color_of_text _ _ E).
  - intros E. now rewrite (bg_color_of_text _ _ E).
Qed.

End Estilo.


Lemma estilo_simple_precedence_witness :
  @bg_color Sample.pandas [("EVAT", Str "rojo y verde")] = "#e8f5e9".
Proof.
  destruct (@estilo_simple_precedence Sample.pandas [("EVAT", Str "rojo y verde")])
    as (_ & _ & _ & _ & Hv & _).
  apply Hv. reflexivity.
Defined.

(** ** Bed arithmetic *)

Lemma sorted_perm xs : sorted xs ≡ₚ xs.
Proof. apply merge_sort_Permutation. Qed.

Lemma sorted_le xs : StronglySorted Z.le (sorted xs).
Proof. apply StronglySorted_merge_sort; apply _. Qed.

Lemma StronglySorted_le_lt (xs : list Z) :
  NoDup xs -> StronglySorted Z.le xs -> StronglySorted Z.lt xs.
Proof.
  induction xs as [|x xs IH]; intros Hnd Hs; [constructor|].
  apply NoDup_cons in Hnd as [Hx Hnd]. apply StronglySorted_cons in Hs as [Hall Hs].
  constructor; [now apply IH|].
  rewrite Forall_forall in *. intros y Hy. specialize (Hall y Hy).
  assert (x <> y) by (intros ->; contradiction). lia.
Qed.

Lemma StronglySorted_lt_NoDup (xs : list Z) : StronglySorted Z.lt xs -> NoDup xs.
Proof.
  induction 1 as [|x xs _ IH Hall]; constructor; [|exact IH].
  intros Hx. rewrite Forall_forall in Hall. specialize (Hall x Hx). lia.
Qed.

Lemma sorted_fixed (xs : list Z) : StronglySorted Z.le xs -> sorted xs = xs.
Proof.
  intros Hs. apply (StronglySorted_unique Z.le); [apply sorted_le | exact Hs|].
  apply sorted_perm.
Qed.

Lemma elem_of_rango_camas z : z ∈ rango_camas <-> 621 <= z <= 642.
Proof.
  unfold rango_camas. rewrite elem_of_list_to_set, elem_of_seqZ. lia.
Qed.

Section Camas.
Context `{Pandas}.

Lemma camas_libres_OK df l :
  camas_libres df = OK l ->
  exists ocupadas, camas_ocupadas df = OK ocupadas /\
                   l = sorted (elements (rango_camas ∖ ocupadas)).
Proof.
  unfold camas_libres. destruct (camas_ocupadas df) as [o|e]; cbn; [|discriminate].
  intros [= <-]. eauto.
Qed.

Lemma elem_of_libres (ocupadas : gset Z) z :
  z ∈ sorted (elements (rango_camas ∖ ocupadas)) <->
  621 <= z <= 642 /\ z ∉ ocupadas.
Proof.
  rewrite sorted_perm, elem_of_elements, elem_of_difference, elem_of_rango_camas.
  reflexivity.
Qed.

Lemma libres_to_set (ocupadas : gset Z) :
  list_to_set (sorted (elements (rango_camas ∖ ocupadas))) =@{gset Z}
  rango_camas ∖ ocupadas.
Proof.
  apply set_eq. intros z.
  rewrite elem_of_list_to_set, sorted_perm, elem_of_elements. reflexivity.
Qed.

Lemma libres_sorted (ocupadas : gset Z) :
  StronglySorted Z.lt (sorted (elements (rango_camas ∖ ocupadas))).
Proof.
  apply StronglySorted_le_lt; [|apply sorted_le].
  rewrite sorted_perm. apply NoDup_elements.
Qed.

(** Every free bed lies in the configured range. *)
Lemma camas_libres_in_range df l :
  camas_libres df = OK l -> Forall (fun z => 621 <= z <= 642) l.
Proof.
  intros Hl. apply camas_libres_OK in Hl as (o & _ & ->).
  apply Forall_forall. intros z Hz. now apply elem_of_libres in Hz.
Qed.

Lemma astype_int_all_OK vs zs :
  astype_int_all vs = OK zs -> Forall2 (fun v z => astype_int v = OK z) vs zs.
Proof.
  revert zs. induction vs as [|v vs IH]; intros zs; cbn.
  - intros [= <-]. constructor.
  - destruct (astype_int v) as [z|e] eqn:Ev; cbn; [|discriminate].
    destruct (astype_int_all vs) as [zs'|e] eqn:Evs; cbn; [|discriminate].
    intros [= <-]. constructor; [exact Ev | now apply IH].
Qed.

Lemma astype_int_all_total vs :
  Forall (fun v => exists z, astype_int v = OK z) vs ->
  exists zs, astype_int_all vs = OK zs.
Proof.
  induction 1 as [|v vs [z Hz] _ [zs Hzs]]; cbn; [eauto|].
  rewrite Hz, Hzs. cbn. eauto.
Qed.

(** The occupied set holds exactly the integers of the bed cells that are
    not NaN. *)
Lemma camas_ocupadas_spec df ocupadas :
  camas_ocupadas df = OK ocupadas ->
  exists j, positions "CAMA" df = [j] /\
    forall z, z ∈ ocupadas <->
      exists r, r ∈ rows df /\ isna (at_pos j r) = false /\
                astype_int (at_pos j r) = OK z.
Proof.
  unfold camas_ocupadas. intros Ho.
  destruct (getitem "CAMA" df AttributeError) as [s|e] eqn:Eg; [|discriminate].
  apply getitem_OK in Eg as (j & Ej & _ & Ev). exists j. split; [exact Ej|].
  revert Ho. cbn. rewrite Ev.
  destruct (astype_int_all _) as [zs|e] eqn:Ez; cbn; [|discriminate].
  intros [= <-] z. apply astype_int_all_OK in Ez.
  rewrite elem_of_list_to_set. split.
  - intros Hz. apply list_elem_of_lookup in Hz as [i Hi].
    destruct (Forall2_lookup_r _ _ _ _ _ Ez Hi) as (v & Hv & Hvz).
    apply list_elem_of_lookup_2, list_elem_of_filter in Hv as [Hna Hv].
    apply list_elem_of_fmap in Hv as (r & -> & Hr). eauto.
  - intros (r & Hr & Hna & Hz).
    assert (at_pos j r ∈ filter (fun c => isna c = false) (map (at_pos j) (rows df))) as Hin.
    { apply list_elem_of_filter. split; [exact Hna|].
      apply list_elem_of_fmap. eauto. }
    apply list_elem_of_lookup in Hin as [i Hi].
    destruct (Forall2_lookup_l _ _ _ _ _ Ez Hi) as (z' & Hz' & Hvz).
    rewrite Hz in Hvz. injection Hvz as <-. now apply list_elem_of_lookup_2 in Hz'.
Qed.

(** The bed computations go through whenever the table has one CAMA column
    and every bed in it is NaN or a finite number, inside the range or not. *)
Lemma camas_libres_total df j :
  positions "CAMA" df = [j] ->
  Forall (fun r => at_pos j r = NaN \/ exists q, at_pos j r = Num (Fin q)) (rows df) ->
  exists l, camas_libres df = OK l.
Proof.
  intros Ej Hfin. unfold camas_libres, camas_ocupadas, getitem. rewrite Ej. cbn.
  destruct (astype_int_all_total
              (filter (fun c => isna c = false) (map (at_pos j) (rows df)))) as [zs Hzs].
  - apply Forall_forall. intros v Hv.
    apply list_elem_of_filter in Hv as [Hna Hv].
    apply list_elem_of_fmap in Hv as (r & -> & Hr).
    rewrite Forall_forall in Hfin. destruct (Hfin r Hr) as [E|[q E]]; rewrite E in *.
    + discriminate.
    + cbn. eauto.
  - rewrite Hzs. cbn. eauto.
Qed.

End Camas.

(** C6: the free-bed sequence is in strictly ascending order, hence without
    duplicates, and sorting it again or rebuilding it from its set of beds
    gives it back. *)
Theorem camas_libres_ascending_distinct `{Pandas} (df : DataFrame) (l : list Z) :
  camas_libres df = OK l ->
  StronglySorted Z.lt l /\ NoDup l /\ sorted l = l /\
  sorted (elements (list_to_set l : gset Z)) = l.
Proof.
  intros Hl. apply camas_libres_OK in Hl as (o & _ & ->).
  pose proof (libres_sorted o) as Hs.
  split; [exact Hs|]. split; [now apply StronglySorted_lt_NoDup|]. split.
  - apply sorted_fixed, sorted_le.
  - now rewrite libres_to_set.
Qed.

(** C1, as the program has it: the free beds and the occupied beds that lie
    in the range partition the range; free and occupied beds are always
    disjoint; together they are the range exactly when no occupied bed lies
    outside it.  The occupied set holds the integers of the bed cells that
    are not NaN, and the free beds are the range minus that set. *)
Theorem camas_partition_within_range `{Pandas}
    (df : DataFrame) (ocupadas : gset Z) (l : list Z) :
  camas_ocupadas df = OK ocupadas ->
  camas_libres df = OK l ->
  let libres : gset Z := list_to_set l in
  libres = rango_camas ∖ ocupadas /\
  libres ∪ (ocupadas ∩ rango_camas) = rango_camas /\
  libres ∩ ocupadas = ∅ /\
  (libres ∪ ocupadas = rango_camas <-> ocupadas ⊆ rango_camas) /\
  (exists j, positions "CAMA" df = [j] /\
     forall z, z ∈ ocupadas <->
       exists r, r ∈ rows df /\ isna (at_pos j r) = false /\
                 astype_int (at_pos j r) = OK z).
Proof.
  intros Ho Hl libres.
  apply camas_libres_OK in Hl as (o & Ho' & ->).
  rewrite Ho in Ho'. injection Ho' as <-.
  assert (libres = rango_camas ∖ ocupadas) as E by apply libres_to_set.
  split; [exact E|]. rewrite E. split; [|split; [|split]].
  - apply set_eq. intros z.
    rewrite elem_of_union, elem_of_difference, elem_of_intersection.
    destruct (decide (z ∈ ocupadas)); tauto.
  - apply set_eq. intros z.
    rewrite elem_of_intersection, elem_of_difference, elem_of_empty. tauto.
  - split.
    + intros Eu z Hz. rewrite <- Eu, elem_of_union. now right.
    + intros Hsub. apply set_eq. intros z.
      rewrite elem_of_union, elem_of_difference.
      destruct (decide (z ∈ ocupadas)); [|tauto].
      split; [intros _; now apply Hsub | tauto].
  - now apply camas_ocupadas_spec.
Qed.

(** With a bed outside the range the free and the occupied beds do not make up
    the range: 700 is occupied. *)
Lemma camas_union_exceeds_range :
  exists (ocupadas : gset Z) (l : list Z),
    @camas_ocupadas Sample.pandas (@load_data Sample.pandas (OK csv_bed_700)) = OK ocupadas /\
    @camas_libres Sample.pandas (@load_data Sample.pandas (OK csv_bed_700)) = OK l /\
    list_to_set l ∪ ocupadas <> rango_camas.
Proof.
  exists {[700]}, (sorted (elements (rango_camas ∖ {[700]}))).
  split; [|split].
  - reflexivity.
  - reflexivity.
  - intros E. assert (700 ∈ rango_camas) as Hin.
    { rewrite <- E, elem_of_union, elem_of_singleton. now right. }
    apply elem_of_rango_camas in Hin. lia.
Qed.

Lemma camas_partition_within_range_witness :
  let l := sorted (elements (rango_camas ∖ {[700]})) in
  (list_to_set l : gset Z) ∪ ({[700]} ∩ rango_camas) = rango_camas.
Proof.
  intros l.
  refine (proj1 (proj2 (@camas_partition_within_range Sample.pandas
    (@load_data Sample.pandas (OK csv_bed_700)) {[700]} l _ _))).
  - reflexivity.
  - reflexivity.
Defined.

Lemma camas_libres_ascending_distinct_witness :
  let l := sorted (elements (rango_camas ∖ {[700]})) in
  StronglySorted Z.lt l /\ NoDup l.
Proof.
  intros l.
  destruct (@camas_libres_ascending_distinct Sample.pandas
    (@load_data Sample.pandas (OK csv_bed_700)) l) as (Hs & Hn & _).
  - reflexivity.
  - split; assumption.
Defined.

(** C9, at the input on which it fails: an infinite bed value passes the
    loader and the cast to integers raises, so no free-bed sequence is
    computed and the page draws nothing. *)
Theorem camas_libres_raises_on_infinite_bed :
  forall P : Pandas,
    @load_data P (OK csv_bed_inf) = csv_bed_inf /\
    @camas_libres P (@load_data P (OK csv_bed_inf)) = Raise IntCastingNaNError /\
    @app P (OK csv_bed_inf) = ([], Raise IntCastingNaNError).
Proof.
  intros P.
  assert (@load_data P (OK csv_bed_inf) = csv_bed_inf) as El.
  { rewrite load_data_read. unfold after_dropna.
    rewrite clean_columns_ascii by (repeat constructor). reflexivity. }
  unfold app. rewrite El. repeat split.
Qed.

(** ** The loader *)

Lemma elem_of_positions_from i name cs j :
  j ∈ positions_from i name cs <->
  exists k, j = (i + k)%nat /\ cs !! k = Some name.
Proof.
  revert i. induction cs as [|c cs IH]; intros i; simpl.
  - split; [intros Hj; inversion Hj | intros (k & _ & Hk); discriminate].
  - destruct (String.eqb c name) eqn:E.
    + apply String.eqb_eq in E as ->. rewrite elem_of_cons, IH. split.
      * intros [->|(k & -> & Hk)]; [exists 0%nat | exists (S k)]; split; auto; lia.
      * intros ([|k] & -> & Hk); [left; lia | right; exists k; split; auto; lia].
    + apply String.eqb_neq in E. rewrite IH. split.
      * intros (k & -> & Hk). exists (S k). split; [lia | exact Hk].
      * intros ([|k] & -> & Hk); [simpl in Hk; congruence|].
        exists k. split; [lia | exact Hk].
Qed.

Lemma elem_of_positions name df j :
  j ∈ positions name df <-> columns df !! j = Some name.
Proof.
  unfold positions. rewrite elem_of_positions_from. split.
  - intros (k & -> & Hk). exact Hk.
  - intros Hj. exists j. auto.
Qed.

Lemma has_column_positions name df :
  has_column name df = true <-> exists j, j ∈ positions name df.
Proof.
  unfold has_column. destruct (positions name df) as [|j js].
  - split; [discriminate | intros [j Hj]; inversion Hj].
  - split; [intros _; exists j; constructor | reflexivity].
Qed.

Lemma is_empty_false df r name j :
  r ∈ rows df -> positions name df = [j] -> is_empty df = false.
Proof.
  intros Hr Ej. unfold is_empty. destruct (rows df) as [|? ?]; [inversion Hr|].
  destruct (schema df) as [|? ?] eqn:Es; [|reflexivity].
  unfold positions, columns in Ej. rewrite Es in Ej. discriminate.
Qed.

Lemma at_pos_alter_ne (f : cell -> cell) j j' r :
  j <> j' -> at_pos j' (alter f j r) = at_pos j' r.
Proof. intros Hne. unfold at_pos. now rewrite list_lookup_alter_ne. Qed.

Lemma at_pos_alter (f : cell -> cell) j r :
  f NaN = NaN -> at_pos j (alter f j r) = f (at_pos j r).
Proof.
  intros Hf. unfold at_pos. rewrite list_lookup_alter_eq.
  destruct (r !! j); simpl; [reflexivity | now rewrite Hf].
Qed.

Lemma fst_alter_dtype j (sch : list (string * dtype)) :
  (alter (fun ct => (ct.1, dt_numeric)) j sch).*1 = sch.*1.
Proof.
  revert j. induction sch as [|ct sch IH]; intros [|j]; simpl; try reflexivity.
  f_equal. apply IH.
Qed.

Lemma rows_dropna_subset name df r :
  r ∈ rows (dropna_subset name df) <->
  r ∈ rows df /\ forall j, j ∈ positions name df -> at_pos j r <> NaN.
Proof.
  unfold dropna_subset. simpl. rewrite list_elem_of_filter, forallb_forall.
  split; intros [Hall Hr]; (split; [|assumption]) || (split; [assumption|]).
  - intros j Hj E. apply list_elem_of_In, Hall in Hj. now rewrite E in Hj.
  - intros j Hj. apply list_elem_of_In, Hr in Hj.
    destruct (at_pos j r); [contradiction|reflexivity|reflexivity].
Qed.

Section Loader.
Context `{Pandas}.

Lemma load_body_read df0 :
  load_body (OK df0) =
    if has_column "CAMA" (after_dropna df0)
    then coerce_column "CAMA" (after_dropna df0)
    else OK (after_dropna df0).
Proof. reflexivity. Qed.

Lemma columns_after_dropna df0 :
  columns (after_dropna df0) = columns (clean_columns df0).
Proof.
  unfold after_dropna. destruct (has_column _ _); reflexivity.
Qed.

Lemma positions_after_dropna name df0 :
  positions name (after_dropna df0) = positions name (clean_columns df0).
Proof. unfold positions. now rewrite columns_after_dropna. Qed.

Lemma has_column_after_dropna name df0 :
  has_column name (after_dropna df0) = has_column name (clean_columns df0).
Proof. unfold has_column. now rewrite positions_after_dropna. Qed.

Lemma rows_after_dropna df0 r :
  r ∈ rows (after_dropna df0) <->
  r ∈ rows df0 /\
  forall j, j ∈ positions "PACIENTE" (clean_columns df0) -> at_pos j r <> NaN.
Proof.
  unfold after_dropna.
  destruct (has_column "PACIENTE" (clean_columns df0)) eqn:E.
  - exact (rows_dropna_subset "PACIENTE" (clean_columns df0) r).
  - simpl. split; [|tauto]. intros Hr. split; [exact Hr|].
    intros j Hj. apply not_true_iff_false in E. exfalso. apply E.
    apply has_column_positions. eauto.
Qed.

(** What the loader returns, case by case. *)
Lemma load_data_cases csv :
  (exists e, csv = Raise e /\ load_data csv = empty_frame) \/
  (exists df0, csv = OK df0 /\
     positions "CAMA" (clean_columns df0) = [] /\
     load_data csv = after_dropna df0) \/
  (exists df0 j, csv = OK df0 /\
     positions "CAMA" (clean_columns df0) = [j] /\
     load_data csv =
       mkDataFrame (alter (fun ct => (ct.1, dt_numeric)) j (schema (after_dropna df0)))
                   (map (alter to_numeric j) (rows (after_dropna df0)))) \/
  (exists df0 j j' js, csv = OK df0 /\
     positions "CAMA" (clean_columns df0) = j :: j' :: js /\
     load_body csv = Raise TypeError /\
     load_data csv = empty_frame).
Proof.
  destruct csv as [df0|e]; [|left; eauto]. right.
  unfold load_data. rewrite load_body_read.
  unfold has_column, coerce_column. rewrite positions_after_dropna.
  destruct (positions "CAMA" (clean_columns df0)) as [|j [|j' js]] eqn:Ep.
  - left. exists df0. auto.
  - right; left. exists df0, j. auto.
  - right; right. exists df0, j, j', js. auto.
Qed.

End Loader.

(** C2, as the program has it: the loader returns a frame on every input; an
    exception of the fetch or of any step of the body is answered with the
    empty frame, and the page then shows the no-data warning; after a
    successful read the body can only fail on a sheet with several CAMA
    columns.  A sheet that merely lacks PACIENTE and CAMA is no failure: it is
    returned with its header cleaned and all its rows. *)
Theorem load_data_absorbs_failures `{Pandas} (csv : result DataFrame) :
  (forall e, load_body csv = Raise e -> load_data csv = empty_frame) /\
  (forall df, load_body csv = OK df -> load_data csv = df) /\
  (forall e, csv = Raise e -> load_data csv = empty_frame) /\
  (forall df0 e, csv = OK df0 -> load_body csv = Raise e ->
     e = TypeError /\
     exists j j' js, positions "CAMA" (clean_columns df0) = j :: j' :: js) /\
  (forall df0, csv = OK df0 ->
     has_column "PACIENTE" (clean_columns df0) = false ->
     has_column "CAMA" (clean_columns df0) = false ->
     load_data csv = clean_columns df0) /\
  (is_empty (load_data csv) = true ->
   app csv = ([warning "No hay datos para mostrar."], OK tt)).
Proof.
  split; [|split; [|split; [|split; [|split]]]].
  - intros e E. unfold load_data. now rewrite E.
  - intros df E. unfold load_data. now rewrite E.
  - intros e ->. reflexivity.
  - intros df0 e -> E.
    destruct (load_data_cases (OK df0))
      as [(e' & E' & _)|[(d & E' & Ep & El)|[(d & j & E' & Ep & El)|(d & j & j' & js & E' & Ep & Eb & _)]]];
      try discriminate; injection E' as <-.
    + exfalso. revert E. rewrite load_body_read. unfold has_column.
      rewrite positions_after_dropna, Ep. discriminate.
    + exfalso. revert E. rewrite load_body_read. unfold has_column, coerce_column.
      rewrite positions_after_dropna, Ep. discriminate.
    + rewrite Eb in E. injection E as <-. split; [reflexivity|]. eauto.
  - intros df0 -> Hp Hc. unfold load_data. rewrite load_body_read.
    rewrite has_column_after_dropna, Hc. unfold after_dropna. now rewrite Hp.
  - intros E. unfold app, interfaz. now rewrite E.
Qed.

Lemma load_data_absorbs_failures_witness :
  @load_data Sample.pandas (OK csv_con_CAMA_repetida) = empty_frame /\
  @app Sample.pandas (OK csv_con_CAMA_repetida)
    = ([warning "No hay datos para mostrar."], OK tt).
Proof.
  destruct (@load_data_absorbs_failures Sample.pandas (OK csv_con_CAMA_repetida))
    as (Hraise & _ & _ & _ & _ & Hpage).
  split.
  - apply (Hraise TypeError). reflexivity.
  - apply Hpage. reflexivity.
Defined.

(** On a sheet that lacks the expected columns nothing fails in the loader
    and the frame it returns is not empty; the page raises [KeyError]. *)
Lemma schema_mismatch_is_not_empty :
  @lacks_expected_columns Sample.pandas csv_otro_esquema /\
  @load_data Sample.pandas (OK csv_otro_esquema) = csv_otro_esquema /\
  is_empty (@load_data Sample.pandas (OK csv_otro_esquema)) = false /\
  @app Sample.pandas (OK csv_otro_esquema) = ([], Raise KeyError).
Proof.
  split; [|repeat split].
  exists "ESP". split; [|reflexivity].
  unfold cols_wanted. apply list_elem_of_In. simpl. tauto.
Qed.

(** C3, as the program has it: when the sheet has a PACIENTE column, no row
    of the loaded table has a NaN under it; when it has none, the loader
    drops no row. *)
Theorem load_data_drops_rows_without_patient `{Pandas} (csv : result DataFrame) :
  (has_column "PACIENTE" (load_data csv) = true ->
   forall r, r ∈ rows (load_data csv) ->
     has_patient_name (load_data csv) r /\
     forall j, j ∈ positions "PACIENTE" (load_data csv) -> at_pos j r <> NaN) /\
  (forall df0 df, csv = OK df0 -> load_body csv = OK df ->
     has_column "PACIENTE" (clean_columns df0) = false ->
     length (rows df) = length (rows df0)).
Proof.
  split.
  - intros Hp r Hr.
    assert (forall j, j ∈ positions "PACIENTE" (load_data csv) -> at_pos j r <> NaN) as Hall.
    { destruct (load_data_cases csv)
        as [(e & _ & El)|[(d & _ & Ep & El)|[(d & j & _ & Ep & El)|(d & j & j' & js & _ & _ & _ & El)]]];
        rewrite El in *; try (inversion Hr; fail).
      - rewrite positions_after_dropna. now apply rows_after_dropna in Hr as [_ Hr].
      - simpl in Hr. apply list_elem_of_fmap in Hr as (r0 & -> & Hr0).
        apply rows_after_dropna in Hr0 as [_ Hr0].
        intros i Hi. unfold positions, columns in Hi. simpl in Hi.
        rewrite fst_alter_dtype in Hi.
        change (i ∈ positions "PACIENTE" (after_dropna d)) in Hi.
        rewrite positions_after_dropna in Hi.
        assert (j <> i) as Hne.
        { intros <-. apply elem_of_positions in Hi.
          assert (j ∈ positions "CAMA" (clean_columns d)) as Hj by (rewrite Ep; constructor).
          apply elem_of_positions in Hj. congruence. }
        rewrite at_pos_alter_ne by exact Hne. now apply Hr0. }
    split; [|exact Hall].
    apply has_column_positions in Hp as [j Hj]. exists j. auto.
  - intros df0 df -> Eb Hp. revert Eb. rewrite load_body_read.
    unfold coerce_column.
    assert (rows (after_dropna df0) = rows df0) as Er
      by (unfold after_dropna; now rewrite Hp).
    destruct (has_column "CAMA" (after_dropna df0)).
    + destruct (positions "CAMA" (after_dropna df0)) as [|j [|? ?]]; try discriminate.
      intros [= <-]. simpl. now rewrite length_map, Er.
    + intros [= <-]. now rewrite Er.
Qed.

Lemma load_data_drops_rows_without_patient_witness :
  rows (@load_data Sample.pandas (OK csv_con_paciente_vacio))
    = [[Num (Fin 621); Str "Ana"]] /\
  has_patient_name (@load_data Sample.pandas (OK csv_con_paciente_vacio))
    [Num (Fin 621); Str "Ana"].
Proof.
  split; [reflexivity|].
  destruct (@load_data_drops_rows_without_patient Sample.pandas
              (OK csv_con_paciente_vacio)) as [Hdrop _].
  apply Hdrop; [reflexivity | constructor].
Defined.

(** Its row stays in the loaded table although it has no patient name. *)
Lemma row_without_patient_is_kept :
  exists r, r ∈ rows (@load_data Sample.pandas (OK csv_sin_paciente)) /\
            ~ has_patient_name (@load_data Sample.pandas (OK csv_sin_paciente)) r.
Proof.
  exists [Num (Fin 621); Str "HEM"]. split.
  - cbn. constructor.
  - intros (j & Hj & _). cbn in Hj. inversion Hj.
Qed.

(** ** Rows through the sort and onto the page *)

Lemma filter_split_perm {A} (f : A -> bool) (l : list A) :
  filter (fun x => f x = false) l ++ filter (fun x => f x = true) l ≡ₚ l.
Proof.
  induction l as [|x l IH]; [reflexivity|].
  rewrite !filter_cons. destruct (f x) eqn:E.
  - rewrite decide_False by discriminate. rewrite decide_True by reflexivity.
    rewrite <- Permutation_middle. now constructor.
  - rewrite decide_True by reflexivity. rewrite decide_False by discriminate.
    simpl. now constructor.
Qed.

Lemma filter_map_filter {A} (f : A -> cell) (l : list A) :
  filter (fun c => isna c = false) (map f l) =
  filter (fun c => isna c = false) (map f (filter (fun x => isna (f x) = false) l)).
Proof.
  induction l as [|x l IH]; [reflexivity|]. simpl.
  rewrite !filter_cons. destruct (isna (f x)) eqn:E.
  - rewrite !decide_False by (rewrite ?E; discriminate). exact IH.
  - rewrite !decide_True by (rewrite ?E; reflexivity). simpl.
    rewrite filter_cons, decide_True by exact E. now rewrite IH.
Qed.

Section Rows.
Context `{Pandas}.

Lemma camas_ocupadas_with_bed df j :
  positions "CAMA" df = [j] ->
  camas_ocupadas df = camas_ocupadas (with_bed j df).
Proof.
  intros Ej. unfold camas_ocupadas, getitem.
  change (positions "CAMA" (with_bed j df)) with (positions "CAMA" df).
  rewrite Ej. cbn. now rewrite (filter_map_filter (at_pos j)).
Qed.

Lemma sort_values_OK name df d :
  sort_values name df = OK d -> schema d = schema df /\ rows d ≡ₚ rows df.
Proof.
  unfold sort_values. destruct (positions name df) as [|j [|? ?]]; try discriminate.
  destruct (_ || _)%bool; [|discriminate]. intros [= <-]. split; [reflexivity|].
  simpl. rewrite sort_by_perm. apply filter_split_perm.
Qed.

Lemma select_sorted labels d df :
  schema d = schema df ->
  select labels d =
    mkDataFrame (schema (select labels df))
      (map (fun r => map (fun i => at_pos i r)
                         (flat_map (fun c => positions c df) labels)) (rows d)).
Proof.
  intros Esch. unfold select.
  assert (flat_map (fun c => positions c d) labels
          = flat_map (fun c => positions c df) labels) as ->.
  { apply flat_map_ext. intros c. unfold positions, columns. now rewrite Esch. }
  now rewrite Esch.
Qed.

Lemma tabla_pacientes_rows df t r :
  tabla_pacientes df = OK t -> r ∈ rows df -> shown_row df r ∈ t.*1.
Proof.
  unfold tabla_pacientes, shown_row. intros Ht Hr.
  destruct (sort_values "CAMA" df) as [d|e] eqn:Es; [|discriminate].
  apply sort_values_OK in Es as [Esch Eperm]. revert Ht.
  cbn [mbind result_bind]. rewrite (select_sorted _ _ _ Esch).
  generalize (cols df). intros labels.
  destruct (bool_decide _); [|discriminate]. intros [= <-].
  rewrite <- list_fmap_compose. apply list_elem_of_fmap.
  exists (map (fun i => at_pos i r) (flat_map (fun c => positions c df) labels)).
  split; [reflexivity|].
  cbn [rows]. apply list_elem_of_fmap. exists r. split; [reflexivity|].
  now rewrite Eperm.
Qed.

Lemma interfaz_draws df t :
  dataframe_pacientes t ∈ (interfaz df).1 -> tabla_pacientes df = OK t.
Proof.
  unfold interfaz. destruct (is_empty df).
  { cbn. intros Hin. apply list_elem_of_In in Hin. simpl in Hin.
    destruct Hin as [?|[]]; discriminate. }
  destruct (hem_count df) as [h|?]; cbn; [|intros Hin; inversion Hin].
  destruct (onc_count df) as [o|?]; cbn; [|intros Hin; inversion Hin].
  destruct (camas_libres df) as [l|?]; cbn; [|intros Hin; inversion Hin].
  destruct (tabla_pacientes df) as [t'|?]; cbn.
  - destruct (tabla_medicos df) as [[[c m]|]|?]; destruct l; cbn;
      intros Hin; apply list_elem_of_In in Hin; simpl in Hin;
      repeat (destruct Hin as [Hin|Hin]; [try discriminate; congruence|]);
      contradiction.
  - destruct l; cbn; intros Hin; apply list_elem_of_In in Hin; simpl in Hin;
      repeat (destruct Hin as [Hin|Hin]; [discriminate|]); contradiction.
Qed.

Lemma interfaz_draws_table df h o l t :
  is_empty df = false ->
  hem_count df = OK h -> onc_count df = OK o -> camas_libres df = OK l ->
  tabla_pacientes df = OK t ->
  dataframe_pacientes t ∈ (interfaz df).1.
Proof.
  intros Ee Eh Eo El Et. unfold interfaz. rewrite Ee, Eh, Eo, El, Et. cbn.
  destruct (tabla_medicos df) as [[[c m]|]|?]; destruct l; cbn;
    apply list_elem_of_In; simpl; tauto.
Qed.

End Rows.

(** ** Doctor load *)


Lemma cell_eqb_sym a b : cell_eqb a b = cell_eqb b a.
Proof.
  destruct a as [|[p| |]|s], b as [|[q| |]|t]; simpl; try reflexivity.
  - apply Qeq_bool_comm.
  - apply String.eqb_sym.
Qed.



#[global] Instance distinct_keys_perm : Proper ((≡ₚ) ==> iff) distinct_keys.
Proof.
  assert (forall l l', l ≡ₚ l' -> distinct_keys l -> distinct_keys l') as Himp.
  { induction 1 as [|[k n] l l' Hp IH|[k n] [k' n'] l|l l' l'' _ IH1 _ IH2].
    - auto.
    - inversion 1; subst. constructor; [assumption| |auto].
      now rewrite <- Hp.
    - inversion 1 as [|? ? ? Hk' Hall' Hd']; subst.
      inversion Hd' as [|? ? ? Hk Hall Hd'']; subst.
      apply Forall_cons in Hall' as [Hkk Hall']. simpl in Hkk.
      constructor; [assumption| |constructor; assumption].
      constructor; [simpl; now rewrite cell_eqb_sym | assumption].
    - auto. }
  intros l l' Hp. split; apply Himp; [exact Hp | now symmetry].
Qed.












Lemma filter_all {A} (P : A -> Prop) `{forall x, Decision (P x)} (l : list A) :
  (forall x, x ∈ l -> P x) -> filter P l = l.
Proof.
  induction l as [|x l IH]; intros Hall; [reflexivity|].
  rewrite filter_cons, decide_True by (apply Hall; constructor).
  f_equal. apply IH. intros y Hy. apply Hall. now constructor.
Qed.







Section Medicos.
Context `{Pandas}.

Lemma value_counts_perm (s : Series) : value_counts s ≡ₚ tally s.2.
Proof. apply sort_by_perm. Qed.




End Medicos.



(** ** What a loaded table looks like *)

Lemma schema_lookup_of_columns df j name :
  columns df !! j = Some name -> exists t, schema df !! j = Some (name, t).
Proof.
  unfold columns. rewrite list_lookup_fmap.
  destruct (schema df !! j) as [[c t]|]; [|discriminate].
  intros [= <-]. eauto.
Qed.

Section Loaded.
Context `{Pandas}.

Lemma to_numeric_is_str c : is_str (to_numeric c) = false.
Proof.
  destruct c as [|x|s]; simpl; try reflexivity.
  destruct (str_to_number s); reflexivity.
Qed.

Lemma loaded_CAMA_cases (csv : result DataFrame) :
  positions "CAMA" (load_data csv) = [] \/
  exists j, positions "CAMA" (load_data csv) = [j] /\
            (schema (load_data csv)).*2 !! j = Some dt_numeric /\
            forall r, r ∈ rows (load_data csv) ->
                      at_pos j r = NaN \/ exists x, at_pos j r = Num x.
Proof.
  destruct (load_data_cases csv)
    as [(e & _ & ->)|[(d & _ & Ep & ->)|[(d & j & _ & Ep & ->)|(d & j & j' & js & _ & _ & _ & ->)]]].
  - now left.
  - left. now rewrite positions_after_dropna.
  - right. exists j.
    assert (positions "CAMA" (after_dropna d) = [j]) as Ej
      by now rewrite positions_after_dropna.
    split; [|split].
    + unfold positions, columns. simpl. rewrite fst_alter_dtype. exact Ej.
    + simpl. assert (j ∈ positions "CAMA" (after_dropna d)) as Hj
        by (rewrite Ej; constructor).
      apply elem_of_positions, schema_lookup_of_columns in Hj as [t Ht].
      rewrite list_lookup_fmap, list_lookup_alter_eq, Ht. reflexivity.
    + simpl. intros r Hr. apply list_elem_of_fmap in Hr as (r0 & -> & _).
      rewrite at_pos_alter by reflexivity.
      pose proof (to_numeric_is_str (at_pos j r0)) as Hs.
      destruct (to_numeric (at_pos j r0)); [now left | right; eauto | discriminate].
  - now left.
Qed.

(** X2: whatever was read, the loaded table has at most one CAMA column; when
    it has one, the column is numeric and none of its cells is a text. *)
Theorem load_data_CAMA_is_numeric (csv : result DataFrame) :
  positions "CAMA" (load_data csv) = [] \/
  exists j, positions "CAMA" (load_data csv) = [j] /\
            (schema (load_data csv)).*2 !! j = Some dt_numeric /\
            forall r, r ∈ rows (load_data csv) ->
                      at_pos j r = NaN \/ exists x, at_pos j r = Num x.
Proof. apply loaded_CAMA_cases. Qed.

Lemma astype_int_all_numbers vs :
  Forall (fun v => exists x, v = Num x) vs ->
  (exists zs, astype_int_all vs = OK zs) \/
  (astype_int_all vs = Raise IntCastingNaNError /\
   exists v, v ∈ vs /\ (v = Num PInf \/ v = Num NInf)).
Proof.
  induction 1 as [|v vs [x ->] _ IH]; [left; cbn; eauto|].
  destruct x as [q| |].
  - cbn. destruct IH as [[zs ->]|[-> (v & Hv & Hinf)]]; cbn.
    + left. eauto.
    + right. split; [reflexivity|]. exists v. split; [now constructor | exact Hinf].
  - right. split; [reflexivity|]. exists (Num PInf). split; [constructor | auto].
  - right. split; [reflexivity|]. exists (Num NInf). split; [constructor | auto].
Qed.

(** X3: on a loaded table the bed computation ends in one of three ways: it
    gives the free beds; it raises [KeyError], and then the table has no CAMA
    column; or it raises on the cast to integers, and then some row has an
    infinite bed.  It gives the free beds whenever the table has a CAMA
    column and no infinite bed. *)
Theorem camas_libres_on_loaded_table (csv : result DataFrame) :
  let df := load_data csv in
  ((exists l, camas_libres df = OK l) \/
   (camas_libres df = Raise KeyError /\ has_column "CAMA" df = false) \/
   (camas_libres df = Raise IntCastingNaNError /\
    exists j r, positions "CAMA" df = [j] /\ r ∈ rows df /\
                (at_pos j r = Num PInf \/ at_pos j r = Num NInf))) /\
  (has_column "CAMA" df = true ->
   (forall j r, positions "CAMA" df = [j] -> r ∈ rows df ->
                at_pos j r <> Num PInf /\ at_pos j r <> Num NInf) ->
   exists l, camas_libres df = OK l).
Proof.
  cbv zeta. pose proof (loaded_CAMA_cases csv) as Hnumeric.
  revert Hnumeric. generalize (load_data csv). intros df Hnumeric.
  assert ((exists l, camas_libres df = OK l) \/
   (camas_libres df = Raise KeyError /\ has_column "CAMA" df = false) \/
   (camas_libres df = Raise IntCastingNaNError /\
    exists j r, positions "CAMA" df = [j] /\ r ∈ rows df /\
                (at_pos j r = Num PInf \/ at_pos j r = Num NInf))) as Hcases.
  { destruct Hnumeric as [E|(j & Ej & _ & Hnum)].
    - right; left. unfold camas_libres, camas_ocupadas, getitem, has_column.
      rewrite E. split; reflexivity.
    - destruct (astype_int_all_numbers
                  (filter (fun c => isna c = false) (map (at_pos j) (rows df))))
        as [[zs Hzs]|[Hraise (v & Hv & Hinf)]].
      + apply Forall_forall. intros v Hv.
        apply list_elem_of_filter in Hv as [Hna Hv].
        apply list_elem_of_fmap in Hv as (r & -> & Hr).
        destruct (Hnum r Hr) as [E|[x E]]; rewrite E in *; [discriminate | eauto].
      + left. unfold camas_libres, camas_ocupadas, getitem. rewrite Ej. cbn.
        rewrite Hzs. cbn. eauto.
      + right; right. split.
        * unfold camas_libres, camas_ocupadas, getitem. rewrite Ej. cbn.
          rewrite Hraise. reflexivity.
        * apply list_elem_of_filter in Hv as [_ Hv].
          apply list_elem_of_fmap in Hv as (r & -> & Hr). exists j, r. auto. }
  split; [exact Hcases|]. intros Hc Hfin.
  destruct Hcases as [Hok|[[_ Hno]|[_ (j & r & Ej & Hr & Hinf)]]]; [exact Hok| |].
  - rewrite Hno in Hc. discriminate.
  - destruct (Hfin j r Ej Hr) as [H1 H2]. destruct Hinf; contradiction.
Qed.

End Loaded.

Lemma camas_libres_on_loaded_table_witness :
  exists l, @camas_libres Sample.pandas (@load_data Sample.pandas (OK csv_cama_texto)) = OK l.
Proof.
  apply (@camas_libres_on_loaded_table Sample.pandas (OK csv_cama_texto)).
  - reflexivity.
  - intros j r Ej Hr. injection Ej as <-.
    apply list_elem_of_In in Hr. simpl in Hr.
    destruct Hr as [<-|[<-|[]]]; split; discriminate.
Defined.

(** ** Rows and header through the loader *)

Lemma rows_after_dropna_sublist `{Pandas} df0 :
  rows (after_dropna df0) `sublist_of` rows df0.
Proof.
  unfold after_dropna. destruct (has_column _ _); [|reflexivity].
  apply sublist_filter.
Qed.

(** X1: when the body of the loader succeeds, the rows of the table are rows
    of the sheet in the order of the sheet, none added; a kept row has its
    length and all its cells outside the CAMA column as in the sheet. *)
Theorem load_data_keeps_rows `{Pandas} (df0 df : DataFrame) :
  load_body (OK df0) = OK df ->
  exists kept,
    kept `sublist_of` rows df0 /\
    Forall2 (fun r r0 =>
               length r = length r0 /\
               forall i, columns df !! i <> Some "CAMA" -> r !! i = r0 !! i)
            (rows df) kept /\
    (len df <= len df0)%nat.
Proof.
  intros Eb. exists (rows (after_dropna df0)).
  split; [apply rows_after_dropna_sublist|].
  assert (load_data (OK df0) = df) as Ed by (unfold load_data; now rewrite Eb).
  destruct (load_data_cases (OK df0))
    as [(e & E & _)|[(d & E & Ep & El)|[(d & j & E & Ep & El)|(d & j & j' & js & E & _ & Er & _)]]];
    try discriminate; injection E as <-.
  - rewrite El in Ed. subst df. split.
    + apply Forall2_same_length_lookup. split; [reflexivity|].
      intros i r r0 Hr Hr0. rewrite Hr in Hr0. injection Hr0 as <-. auto.
    + unfold len. apply sublist_length, rows_after_dropna_sublist.
  - rewrite El in Ed. subst df. simpl. split.
    + apply Forall2_fmap_l, Forall_Forall2_diag, Forall_forall.
      intros r0 _. split; [apply length_alter|].
      intros i Hi. apply list_lookup_alter_ne. intros <-. apply Hi.
      unfold columns. simpl. rewrite fst_alter_dtype.
      apply (elem_of_positions "CAMA" (after_dropna df0)).
      rewrite positions_after_dropna, Ep. constructor.
    + unfold len. simpl. rewrite length_map.
      apply sublist_length, rows_after_dropna_sublist.
  - rewrite Er in Eb. discriminate.
Qed.

Lemma load_data_keeps_rows_witness :
  exists kept,
    kept `sublist_of` rows csv_con_paciente_vacio /\
    Forall2 (fun r r0 =>
               length r = length r0 /\
               forall i, columns (@load_data Sample.pandas (OK csv_con_paciente_vacio)) !! i
                           <> Some "CAMA" -> r !! i = r0 !! i)
            (rows (@load_data Sample.pandas (OK csv_con_paciente_vacio))) kept /\
    (len (@load_data Sample.pandas (OK csv_con_paciente_vacio))
       <= len csv_con_paciente_vacio)%nat.
Proof.
  apply (@load_data_keeps_rows Sample.pandas). reflexivity.
Defined.

Lemma columns_clean_columns `{Pandas} df :
  columns (clean_columns df) =
  map (fun c => rename_map (str_upper (str_strip c))) (columns df).
Proof.
  unfold columns, clean_columns. simpl.
  induction (schema df) as [|[c t] l IH]; [reflexivity|]. csimpl. now rewrite IH.
Qed.

Lemma has_column_clean_columns `{Pandas} name df :
  has_column name (clean_columns df) = true <->
  exists c, c ∈ columns df /\ rename_map (str_upper (str_strip c)) = name.
Proof.
  rewrite has_column_positions. setoid_rewrite elem_of_positions.
  rewrite columns_clean_columns. split.
  - intros (j & Hj). apply list_elem_of_lookup_2, list_elem_of_fmap in Hj
      as (c & -> & Hc). eauto.
  - intros (c & Hc & <-).
    apply (list_elem_of_lookup_1 (map _ (columns df))), list_elem_of_fmap. eauto.
Qed.

Lemma rename_map_cases x :
  (x = "ESTANCIA HOSPITALARIA" /\ rename_map x = "ESTANCIA") \/
  (x = "INGRESO POR" /\ rename_map x = "MOTIVO") \/
  (x = "FECHA DE INGRESO" /\ rename_map x = "INGRESO") \/
  (x <> "ESTANCIA HOSPITALARIA" /\ x <> "INGRESO POR" /\
   x <> "FECHA DE INGRESO" /\ rename_map x = x).
Proof.
  unfold rename_map.
  destruct (String.eqb x "ESTANCIA HOSPITALARIA") eqn:E1;
    [apply String.eqb_eq in E1; auto|apply String.eqb_neq in E1].
  destruct (String.eqb x "INGRESO POR") eqn:E2;
    [apply String.eqb_eq in E2; auto|apply String.eqb_neq in E2].
  destruct (String.eqb x "FECHA DE INGRESO") eqn:E3;
    [apply String.eqb_eq in E3; auto 6|apply String.eqb_neq in E3].
  right; right; right. auto.
Qed.

Lemma upper_eq_same_text s name :
  Py.upper name = name -> Py.upper s = name <-> same_text s name.
Proof.
  intros E. rewrite (same_text_smap Py.upper_char same_letter_upper).
  fold (Py.upper s) (Py.upper name). now rewrite E.
Qed.

(** X4: after the header is cleaned the table has a column [name], for a
    name that is none of the renamed ones, exactly when some header of the
    sheet, stripped and upper-cased by Python, is that name; it has an
    ESTANCIA, MOTIVO or INGRESO column exactly when some header so cleaned is
    that name or its long form; the long forms themselves never remain.  For
    a header of ASCII characters, cleaned means: the blanks around it taken
    off, it is the name up to the case of its letters. *)
Theorem clean_columns_header_matching `{Pandas} (df : DataFrame) :
  (forall name,
     name <> "ESTANCIA" -> name <> "MOTIVO" -> name <> "INGRESO" ->
     name <> "ESTANCIA HOSPITALARIA" -> name <> "INGRESO POR" ->
     name <> "FECHA DE INGRESO" ->
     (has_column name (clean_columns df) = true <->
      exists c, c ∈ columns df /\ str_upper (str_strip c) = name)) /\
  (has_column "ESTANCIA" (clean_columns df) = true <->
   exists c, c ∈ columns df /\
     (str_upper (str_strip c) = "ESTANCIA" \/
      str_upper (str_strip c) = "ESTANCIA HOSPITALARIA")) /\
  (has_column "MOTIVO" (clean_columns df) = true <->
   exists c, c ∈ columns df /\
     (str_upper (str_strip c) = "MOTIVO" \/ str_upper (str_strip c) = "INGRESO POR")) /\
  (has_column "INGRESO" (clean_columns df) = true <->
   exists c, c ∈ columns df /\
     (str_upper (str_strip c) = "INGRESO" \/
      str_upper (str_strip c) = "FECHA DE INGRESO")) /\
  has_column "ESTANCIA HOSPITALARIA" (clean_columns df) = false /\
  has_column "INGRESO POR" (clean_columns df) = false /\
  has_column "FECHA DE INGRESO" (clean_columns df) = false /\
  (forall c name,
     Py.is_ascii c = true -> Py.upper name = name ->
     (str_upper (str_strip c) = name <-> same_text (Py.strip c) name)).
Proof.
  assert (forall name target long,
            (forall x, rename_map x = name <-> x = name \/ (target = name /\ x = long)) ->
            (has_column name (clean_columns df) = true <->
             exists c, c ∈ columns df /\
               (str_upper (str_strip c) = name \/
                (target = name /\ str_upper (str_strip c) = long)))) as Hgen.
  { intros name target long Hren. rewrite has_column_clean_columns.
    split; intros (c & Hc & Hm); exists c; (split; [exact Hc|]); now apply Hren. }
  assert (forall name, has_column name (clean_columns df) = true ->
            name <> "ESTANCIA HOSPITALARIA" /\ name <> "INGRESO POR" /\
            name <> "FECHA DE INGRESO") as Hnever.
  { intros name Hc. apply has_column_clean_columns in Hc as (c & _ & <-).
    destruct (rename_map_cases (str_upper (str_strip c)))
      as [[_ ->]|[[_ ->]|[[_ ->]|(? & ? & ? & ->)]]]; repeat split; try discriminate; auto. }
  split; [|split; [|split; [|split; [|split; [|split; [|split]]]]]].
  - intros name N1 N2 N3 N4 N5 N6.
    rewrite (Hgen name "" name).
    + split; intros (c & Hc & Hm); exists c; (split; [exact Hc|]).
      * destruct Hm as [Hm|[_ Hm]]; exact Hm.
      * now left.
    + intros x.
      destruct (rename_map_cases x)
        as [[-> ->]|[[-> ->]|[[-> ->]|(? & ? & ? & ->)]]];
        (split; intros Hx;
         [first [now left | exfalso; congruence]
         |destruct Hx as [?|[? ?]]; congruence]).
  - rewrite (Hgen "ESTANCIA" "ESTANCIA" "ESTANCIA HOSPITALARIA").
    + split; intros (c & Hc & Hm); exists c; (split; [exact Hc|]); tauto.
    + intros x.
      destruct (rename_map_cases x)
        as [[-> ->]|[[-> ->]|[[-> ->]|(? & ? & ? & ->)]]];
        split; try tauto; intros Hx; try discriminate;
        try (destruct Hx as [?|[? ?]]; congruence); auto.
  - rewrite (Hgen "MOTIVO" "MOTIVO" "INGRESO POR").
    + split; intros (c & Hc & Hm); exists c; (split; [exact Hc|]); tauto.
    + intros x.
      destruct (rename_map_cases x)
        as [[-> ->]|[[-> ->]|[[-> ->]|(? & ? & ? & ->)]]];
        split; try tauto; intros Hx; try discriminate;
        try (destruct Hx as [?|[? ?]]; congruence); auto.
  - rewrite (Hgen "INGRESO" "INGRESO" "FECHA DE INGRESO").
    + split; intros (c & Hc & Hm); exists c; (split; [exact Hc|]); tauto.
    + intros x.
      destruct (rename_map_cases x)
        as [[-> ->]|[[-> ->]|[[-> ->]|(? & ? & ? & ->)]]];
        split; try tauto; intros Hx; try discriminate;
        try (destruct Hx as [?|[? ?]]; congruence); auto.
  - apply not_true_iff_false. intros Hc. apply Hnever in Hc. tauto.
  - apply not_true_iff_false. intros Hc. apply Hnever in Hc. tauto.
  - apply not_true_iff_false. intros Hc. apply Hnever in Hc. tauto.
  - intros c name Ha Eu. rewrite (clean_name_ascii _ Ha).
    now apply upper_eq_same_text.
Qed.

Lemma clean_columns_header_matching_witness :
  has_column "CAMA" (@clean_columns Sample.pandas csv_cama_texto) = true.
Proof.
  destruct (@clean_columns_header_matching Sample.pandas csv_cama_texto)
    as (Hplain & _ & _ & _ & _ & _ & _ & Hascii).
  apply Hplain; try discriminate.
  exists "Cama". split; [constructor|].
  apply Hascii; try reflexivity.
  repeat constructor; apply lower_upper; simpl; lia.
Defined.

(** ** Free beds, capacity and the banner *)

Lemma size_rango_camas : size rango_camas = 22%nat.
Proof.
  unfold rango_camas. rewrite size_list_to_set by apply NoDup_seqZ.
  now rewrite length_seqZ.
Qed.

(** X5: the number of free beds and the number of occupied beds of the range
    add up to the 22 beds of the range; in particular no more than 22 beds
    are free. *)
Theorem camas_libres_capacity `{Pandas}
    (df : DataFrame) (ocupadas : gset Z) (l : list Z) :
  camas_ocupadas df = OK ocupadas ->
  camas_libres df = OK l ->
  (length l + size (rango_camas ∩ ocupadas) = 22)%nat /\ (length l <= 22)%nat.
Proof.
  intros Ho Hl. apply camas_libres_OK in Hl as (o & Ho' & ->).
  rewrite Ho in Ho'. injection Ho' as <-.
  assert (length (sorted (elements (rango_camas ∖ ocupadas)))
          = size (rango_camas ∖ ocupadas)) as El
    by (now rewrite sorted_perm).
  rewrite El, size_difference_alt.
  pose proof (subseteq_size (rango_camas ∩ ocupadas) rango_camas) as Hle.
  rewrite size_rango_camas in *.
  assert (size (rango_camas ∩ ocupadas) <= 22)%nat
    by (apply Hle; intros z Hz; now apply elem_of_intersection in Hz as [? _]).
  lia.
Qed.

Lemma camas_libres_capacity_witness :
  (length (sorted (elements (rango_camas ∖ {[700%Z]}))) <= 22)%nat.
Proof.
  refine (proj2 (@camas_libres_capacity Sample.pandas
    (@load_data Sample.pandas (OK csv_bed_700)) {[700]} _ _ _)); reflexivity.
Defined.

Section Banner.
Context `{Pandas}.

Lemma camas_libres_nil (df : DataFrame) :
  camas_libres df = OK [] <->
  exists ocupadas, camas_ocupadas df = OK ocupadas /\
                   forall z, 621 <= z <= 642 -> z ∈ ocupadas.
Proof.
  split.
  - intros Hl. pose proof Hl as Hl'.
    apply camas_libres_OK in Hl as (o & Ho & El). exists o. split; [exact Ho|].
    intros z Hz. destruct (decide (z ∈ o)) as [Hin|Hout]; [exact Hin|].
    assert (z ∈ sorted (elements (rango_camas ∖ o))) as Hfree
      by (apply elem_of_libres; auto).
    rewrite <- El in Hfree. inversion Hfree.
  - intros (o & Ho & Hall). unfold camas_libres. rewrite Ho. cbn. f_equal.
    destruct (sorted (elements (rango_camas ∖ o))) as [|z l] eqn:E; [reflexivity|].
    assert (z ∈ sorted (elements (rango_camas ∖ o))) as Hz
      by (rewrite E; constructor).
    apply elem_of_libres in Hz as [Hr Ho']. exfalso. apply Ho', Hall, Hr.
Qed.

Lemma interfaz_banner (df : DataFrame) (w : widget) :
  w ∈ (interfaz df).1 ->
  (forall text, w = error text -> camas_libres df = OK []) /\
  (forall l, w = free_beds l -> camas_libres df = OK l /\ l <> []).
Proof.
  unfold interfaz. destruct (is_empty df).
  { cbn. intros Hin. apply list_elem_of_In in Hin. simpl in Hin.
    destruct Hin as [<-|[]]. split; intros; discriminate. }
  destruct (hem_count df) as [h|?]; cbn; [|intros Hin; inversion Hin].
  destruct (onc_count df) as [o|?]; cbn; [|intros Hin; inversion Hin].
  destruct (camas_libres df) as [l|?]; cbn; [|intros Hin; inversion Hin].
  destruct (tabla_pacientes df) as [t'|?]; cbn;
    [destruct (tabla_medicos df) as [[[c m]|]|?]|]; destruct l as [|z l]; cbn;
    intros Hin; apply list_elem_of_In in Hin; simpl in Hin;
    repeat (destruct Hin as [<-|Hin];
            [split; intros; try discriminate; try congruence;
             match goal with
             | E : free_beds _ = free_beds _ |- _ =>
                 injection E as <-; split; [reflexivity | discriminate]
             end|]);
    contradiction.
Qed.

(** X6: no bed is free exactly when every bed from 621 to 642 is occupied;
    the page shows the SIN CAMAS alert only then, and shows the box of
    available beds only with the free beds, of which there is at least
    one. *)
Theorem sin_camas_only_when_full (df : DataFrame) :
  (camas_libres df = OK [] <->
   exists ocupadas, camas_ocupadas df = OK ocupadas /\
                    forall z, 621 <= z <= 642 -> z ∈ ocupadas) /\
  (forall text, error text ∈ (interfaz df).1 -> camas_libres df = OK []) /\
  (forall l, free_beds l ∈ (interfaz df).1 -> camas_libres df = OK l /\ l <> []).
Proof.
  split; [apply camas_libres_nil|]. split.
  - intros text Hin. now apply (interfaz_banner df _ Hin) with text.
  - intros l Hin. now apply (interfaz_banner df _ Hin).
Qed.

End Banner.

(** ** The page as a whole *)

Lemma length_boolean_index mask rs :
  (length (boolean_index mask rs) <= length rs)%nat.
Proof.
  revert rs. induction mask as [|b mask IH]; intros [|r rs]; simpl; try lia.
  specialize (IH rs). destruct b; simpl; lia.
Qed.

Lemma esp_count_le_len pat df n : esp_count pat df = OK n -> (n <= len df)%nat.
Proof.
  unfold esp_count. destruct (getitem "ESP" df AttributeError) as [s|?]; [|discriminate].
  cbn. destruct (str_contains pat s) as [mask|?]; [|discriminate].
  cbn. intros [= <-]. apply length_boolean_index.
Qed.

Section Page.
Context `{Pandas}.

(** X7: on a table that is not empty the counters and the free beds are
    computed before anything is drawn: if one of them raises, the page stays
    blank and the script ends with that exception; otherwise the page opens
    with the title and the four metrics, which show the number of rows, the
    two specialty counts (none above the number of rows) and the number of
    free beds out of 22. *)
Theorem interfaz_header (df : DataFrame) :
  is_empty df = false ->
  (forall e, hem_count df = Raise e -> interfaz df = ([], Raise e)) /\
  (forall h e, hem_count df = OK h -> onc_count df = Raise e ->
               interfaz df = ([], Raise e)) /\
  (forall h o e, hem_count df = OK h -> onc_count df = OK o ->
                 camas_libres df = Raise e -> interfaz df = ([], Raise e)) /\
  (forall h o l, hem_count df = OK h -> onc_count df = OK o ->
                 camas_libres df = OK l ->
     (h <= len df)%nat /\ (o <= len df)%nat /\
     exists rest,
       (interfaz df).1 =
         [title "Gestión de Camas";
          metric "Total Pacientes" (len df) None;
          metric "Hematología (HEM)" h None;
          metric "Oncología (ONC)" o None;
          metric "Camas Disponibles" (length l) (Some 22%nat)] ++ rest).
Proof.
  intros Ee. unfold interfaz. rewrite Ee. split; [|split; [|split]].
  - intros e ->. reflexivity.
  - intros h e -> ->. reflexivity.
  - intros h o e -> -> ->. reflexivity.
  - intros h o l Eh Eo El.
    split; [exact (esp_count_le_len _ _ _ Eh)|].
    split; [exact (esp_count_le_len _ _ _ Eo)|].
    rewrite Eh, Eo, El, size_rango_camas. cbn.
    destruct (tabla_pacientes df) as [t|?]; cbn;
      [destruct (tabla_medicos df) as [[[c m]|]|?]|]; destruct l; cbn;
      eexists; reflexivity.
Qed.

Lemma interfaz_not_warning (df : DataFrame) :
  is_empty df = false ->
  interfaz df <> ([warning "No hay datos para mostrar."], OK tt).
Proof.
  intros Ee. unfold interfaz. rewrite Ee.
  destruct (hem_count df) as [h|?]; cbn; [|discriminate].
  destruct (onc_count df) as [o|?]; cbn; [|discriminate].
  destruct (camas_libres df) as [l|?]; cbn; [|discriminate].
  destruct (tabla_pacientes df) as [t|?]; cbn;
    [destruct (tabla_medicos df) as [[[c m]|]|?]|]; destruct l; cbn; discriminate.
Qed.

(** X8: the page is the no-data warning alone exactly when the loaded table
    is empty. *)
Theorem no_data_warning_iff_empty (csv : result DataFrame) :
  app csv = ([warning "No hay datos para mostrar."], OK tt) <->
  is_empty (load_data csv) = true.
Proof.
  unfold app. split.
  - intros E. destruct (is_empty (load_data csv)) eqn:Ee; [reflexivity|].
    now apply interfaz_not_warning in Ee.
  - intros Ee. unfold interfaz. now rewrite Ee.
Qed.

(** X9: a sheet with a PACIENTE column in which every row has an empty
    patient cell, in particular a sheet with a header and no rows, loads as
    an empty table: the page is the no-data warning. *)
Theorem sheet_without_patients_is_no_data (df0 : DataFrame) :
  has_column "PACIENTE" (clean_columns df0) = true ->
  (forall r, r ∈ rows df0 ->
     exists i, i ∈ positions "PACIENTE" (clean_columns df0) /\ at_pos i r = NaN) ->
  rows (load_data (OK df0)) = [] /\
  app (OK df0) = ([warning "No hay datos para mostrar."], OK tt).
Proof.
  intros Hp Hall.
  assert (rows (after_dropna df0) = []) as Er.
  { destruct (rows (after_dropna df0)) as [|r l] eqn:E; [reflexivity|].
    assert (r ∈ rows (after_dropna df0)) as Hr by (rewrite E; constructor).
    apply rows_after_dropna in Hr as [Hr Hnot].
    destruct (Hall r Hr) as (i & Hi & Hnan). now apply Hnot in Hi. }
  assert (rows (load_data (OK df0)) = []) as Erows.
  { destruct (load_data_cases (OK df0))
      as [(e & E & El)|[(d & E & _ & El)|[(d & j & E & _ & El)|(d & j & j' & js & E & _ & _ & El)]]];
      rewrite El; try reflexivity; injection E as <-.
    - exact Er.
    - simpl. now rewrite Er. }
  split; [exact Erows|].
  assert (is_empty (load_data (OK df0)) = true) as Ee
    by (unfold is_empty; rewrite Erows; now destruct (schema _)).
  unfold app, interfaz. now rewrite Ee.
Qed.

End Page.

Lemma interfaz_header_witness :
  exists rest,
    (@app Sample.pandas (OK csv_bed_700)).1 =
      [title "Gestión de Camas";
       metric "Total Pacientes" 1 None;
       metric "Hematología (HEM)" 0 None;
       metric "Oncología (ONC)" 1 None;
       metric "Camas Disponibles" 22 (Some 22%nat)] ++ rest.
Proof.
  destruct (@interfaz_header Sample.pandas (@load_data Sample.pandas (OK csv_bed_700))
              eq_refl) as (_ & _ & _ & Hdraw).
  destruct (Hdraw 0%nat 1%nat (sorted (elements (rango_camas ∖ {[700]})))
              eq_refl eq_refl eq_refl) as (_ & _ & rest & Hrest).
  exists rest. exact Hrest.
Defined.

Lemma sheet_without_patients_is_no_data_witness :
  @app Sample.pandas (OK csv_sin_pacientes)
    = ([warning "No hay datos para mostrar."], OK tt).
Proof.
  refine (proj2 (@sheet_without_patients_is_no_data Sample.pandas
                   csv_sin_pacientes eq_refl _)).
  intros r Hr. exists 1%nat. split; [repeat constructor|].
  apply list_elem_of_In in Hr. simpl in Hr. destruct Hr as [<-|[]]. reflexivity.
Defined.

(** ** The patient table *)

Lemma columns_select labels df :
  columns (select labels df) =
  flat_map (fun c => map (fun _ => c) (positions c df)) labels.
Proof.
  unfold columns, select. cbn [schema].
  induction labels as [|c labels IH]; [reflexivity|].
  cbn [flat_map]. rewrite omap_app, fmap_app, IH. f_equal.
  assert (forall js, (forall j, j ∈ js -> j ∈ positions c df) ->
            (omap (fun j => schema df !! j) js).*1 = map (fun _ => c) js) as Hjs.
  { induction js as [|j js IHjs]; intros Hin; [reflexivity|].
    assert (j ∈ positions c df) as Hj by (apply Hin; constructor).
    apply elem_of_positions, schema_lookup_of_columns in Hj as [t Ht].
    cbn [omap list_omap]. rewrite Ht. csimpl. f_equal.
    apply IHjs. intros j' Hj'. apply Hin. now constructor. }
  now apply Hjs.
Qed.

Lemma one_position_each (pos : string -> list nat) labels :
  NoDup (flat_map (fun c => map (fun _ => c) (pos c)) labels) ->
  (forall c, c ∈ labels -> pos c <> []) ->
  Forall2 (fun c i => pos c = [i]) labels (flat_map pos labels) /\
  flat_map (fun c => map (fun _ => c) (pos c)) labels = labels.
Proof.
  induction labels as [|c labels IH]; intros Hnd Hne; [split; [constructor|reflexivity]|].
  cbn [flat_map] in *. apply NoDup_app in Hnd as (Hc & _ & Hnd).
  assert (exists i, pos c = [i]) as [i Ei].
  { destruct (pos c) as [|i [|i' js]] eqn:E.
    - exfalso. apply (Hne c); [constructor | exact E].
    - eauto.
    - simpl in Hc. apply NoDup_cons in Hc as [Hc _]. exfalso. apply Hc. constructor. }
  destruct IH as [IH1 IH2]; [exact Hnd | intros c' Hc'; apply Hne; now constructor|].
  rewrite Ei. simpl. split; [constructor; assumption | now rewrite IH2].
Qed.

Lemma row_get_zip (pos : string -> list nat) (f : nat -> cell) labels ps key :
  Forall2 (fun c i => pos c = [i]) labels ps ->
  row_get key (zip labels (map f ps)) =
  if bool_decide (key ∈ labels) then f <$> head (pos key) else None.
Proof.
  induction 1 as [|c i labels ps Hc _ IH]; [reflexivity|]. simpl.
  destruct (String.eqb c key) eqn:E.
  - apply String.eqb_eq in E as ->.
    rewrite bool_decide_eq_true_2 by constructor. now rewrite Hc.
  - apply String.eqb_neq in E. rewrite IH.
    destruct (bool_decide (key ∈ labels)) eqn:Ek.
    + apply bool_decide_eq_true in Ek.
      now rewrite bool_decide_eq_true_2 by (now constructor).
    + apply bool_decide_eq_false in Ek.
      rewrite bool_decide_eq_false_2; [reflexivity|].
      intros Hin. apply elem_of_cons in Hin as [->|Hin]; contradiction.
Qed.

Lemma elem_of_cols c df :
  c ∈ cols df <-> c ∈ cols_wanted /\ has_column c df = true.
Proof. unfold cols. rewrite list_elem_of_filter. tauto. Qed.

Lemma fst_zip_map {A B C} (l : list A) (f : B -> C) (ps : list B) :
  length l = length ps -> (zip l (map f ps)).*1 = l.
Proof. intros E. apply fst_zip. rewrite length_map. lia. Qed.

Section Tabla.
Context `{Pandas}.

Lemma sort_values_rows name df d :
  sort_values name df = OK d ->
  exists j ordered,
    positions name df = [j] /\ schema d = schema df /\
    ordered ≡ₚ filter (fun r => isna (at_pos j r) = false) (rows df) /\
    rows d = ordered ++ filter (fun r => isna (at_pos j r) = true) (rows df).
Proof.
  unfold sort_values. destruct (positions name df) as [|j [|? ?]]; try discriminate.
  destruct (_ || _)%bool; [|discriminate]. intros [= <-].
  eexists j, _. split; [reflexivity|]. split; [reflexivity|].
  split; [apply sort_by_perm | reflexivity].
Qed.

(** What [tabla_pacientes] returns, in terms of the rows of the frame. *)
Lemma tabla_pacientes_OK df t :
  tabla_pacientes df = OK t ->
  exists j ordered,
    positions "CAMA" df = [j] /\
    ordered ≡ₚ filter (fun r => isna (at_pos j r) = false) (rows df) /\
    t = map (fun r => (shown_row df r, estilo_simple (shown_row df r)))
            (ordered ++ filter (fun r => isna (at_pos j r) = true) (rows df)) /\
    Forall2 (fun c i => positions c df = [i]) (cols df)
            (flat_map (fun c => positions c df) (cols df)) /\
    columns (select (cols df) df) = cols df.
Proof.
  unfold tabla_pacientes. intros Ht.
  destruct (sort_values "CAMA" df) as [d|e] eqn:Es; [|discriminate].
  apply sort_values_rows in Es as (j & ordered & Ej & Esch & Eperm & Erows).
  revert Ht. cbn [mbind result_bind]. rewrite (select_sorted _ _ _ Esch).
  unfold columns at 1. cbn [schema rows].
  fold (columns (select (cols df) df)).
  destruct (bool_decide _) eqn:End; [|discriminate].
  apply bool_decide_eq_true in End. rewrite columns_select in End.
  destruct (one_position_each (fun c => positions c df) (cols df) End) as [Hone Hcols].
  { intros c Hc. apply elem_of_cols in Hc as [_ Hc].
    apply has_column_positions in Hc as [i Hi]. intros E. rewrite E in Hi. inversion Hi. }
  intros [= <-]. exists j, ordered. split; [exact Ej|]. split; [exact Eperm|].
  split; [|split; [exact Hone | now rewrite columns_select]].
  rewrite Erows, map_map. reflexivity.
Qed.

(** X10: the patient table has one row per row of the frame; every row
    carries exactly the wanted columns that the frame has, in the order CAMA,
    ESP, PACIENTE, EVAT, MOTIVO, ESTANCIA, MEDICO, and one style per cell, all
    with the background of the row. *)
Theorem tabla_pacientes_shape (df : DataFrame) t :
  tabla_pacientes df = OK t ->
  length t = len df /\
  cols df `sublist_of` cols_wanted /\
  forall row styles, (row, styles) ∈ t ->
    row.*1 = cols df /\
    length styles = length row /\
    forall s, s ∈ styles ->
      s = "background-color: " +:+ bg_color row +:+ "; color: black".
Proof.
  intros Ht. apply tabla_pacientes_OK in Ht as (j & ordered & _ & Eperm & -> & Hone & Hcols).
  split; [|split].
  - rewrite length_map, length_app, Eperm, <- length_app. unfold len.
    now rewrite filter_split_perm.
  - apply sublist_filter.
  - intros row styles Hin. apply list_elem_of_fmap in Hin as (r & [= -> ->] & _).
    split; [|split].
    + unfold shown_row, as_row. rewrite Hcols. apply fst_zip_map.
      now apply Forall2_length in Hone.
    + unfold estilo_simple. apply length_map.
    + intros s Hs. unfold estilo_simple in Hs.
      apply list_elem_of_fmap in Hs as (? & -> & _). reflexivity.
Qed.

(** X11: in the patient table the rows that have a bed come first and the
    rows without a bed come last, these in the order of the sheet. *)
Theorem tabla_pacientes_beds_first (df : DataFrame) t :
  tabla_pacientes df = OK t ->
  exists j ordered,
    positions "CAMA" df = [j] /\
    ordered ≡ₚ filter (fun r => isna (at_pos j r) = false) (rows df) /\
    t.*1 = map (shown_row df) ordered ++
           map (shown_row df) (filter (fun r => isna (at_pos j r) = true) (rows df)).
Proof.
  intros Ht. apply tabla_pacientes_OK in Ht as (j & ordered & Ej & Eperm & -> & _).
  exists j, ordered. split; [exact Ej|]. split; [exact Eperm|].
  rewrite <- list_fmap_compose, <- fmap_app. reflexivity.
Qed.

(** X12: a drawn row shows, under each label, the cell that the row of the
    frame has in the column of that label, and nothing under a label the
    table does not show; so the background of a row is decided by the EVAT
    cell of that very row, and without an EVAT column every row is white. *)
Theorem shown_row_cells (df : DataFrame) t (r : list cell) :
  tabla_pacientes df = OK t ->
  (forall key i, key ∈ cols_wanted -> positions key df = [i] ->
     row_get key (shown_row df r) = Some (at_pos i r)) /\
  (forall key, key ∉ cols df -> row_get key (shown_row df r) = None) /\
  (forall i, positions "EVAT" df = [i] ->
     evat_text (shown_row df r) = py_str (Some (at_pos i r))) /\
  (has_column "EVAT" df = false -> bg_color (shown_row df r) = "white").
Proof.
  intros Ht. apply tabla_pacientes_OK in Ht as (_ & _ & _ & _ & _ & Hone & Hcols).
  assert (forall key, row_get key (shown_row df r) =
            if bool_decide (key ∈ cols df)
            then (fun i => at_pos i r) <$> head (positions key df) else None) as Hget.
  { intros key. unfold shown_row, as_row. rewrite Hcols.
    exact (row_get_zip (fun c => positions c df) (fun i => at_pos i r) _ _ key Hone). }
  assert (forall key i, key ∈ cols_wanted -> positions key df = [i] ->
            row_get key (shown_row df r) = Some (at_pos i r)) as Hshown.
  { intros key i Hk Ei. rewrite Hget, Ei.
    rewrite bool_decide_eq_true_2; [reflexivity|].
    apply elem_of_cols. split; [exact Hk|]. unfold has_column. now rewrite Ei. }
  split; [exact Hshown|]. split; [|split].
  - intros key Hk. rewrite Hget. now rewrite bool_decide_eq_false_2.
  - intros i Ei. unfold evat_text. rewrite (Hshown "EVAT" i); [reflexivity| |exact Ei].
    unfold cols_wanted. apply list_elem_of_In. simpl. tauto.
  - intros Hno.
    assert (row_get "EVAT" (shown_row df r) = None) as E.
    { rewrite Hget. rewrite bool_decide_eq_false_2; [reflexivity|].
      intros Hin. apply elem_of_cols in Hin as [_ Hin]. congruence. }
    rewrite bg_color_ascii; unfold evat_text; now rewrite E.
Qed.

End Tabla.

(** The page of the sheet with a bed given as a word. *)
Lemma tabla_pacientes_shape_witness :
  match @tabla_pacientes Sample.pandas (@load_data Sample.pandas (OK csv_cama_texto)) with
  | OK t => length t = 2%nat
  | Raise _ => False
  end.
Proof.
  destruct (@tabla_pacientes Sample.pandas (@load_data Sample.pandas (OK csv_cama_texto)))
    as [t|e] eqn:E.
  - exact (proj1 (@tabla_pacientes_shape Sample.pandas _ t E)).
  - vm_compute in E. discriminate.
Defined.

Lemma tabla_pacientes_beds_first_witness :
  match @tabla_pacientes Sample.pandas (@load_data Sample.pandas (OK csv_cama_texto)) with
  | OK t =>
      exists j ordered,
        positions "CAMA" (@load_data Sample.pandas (OK csv_cama_texto)) = [j] /\
        ordered ≡ₚ filter (fun r => isna (at_pos j r) = false)
                     (rows (@load_data Sample.pandas (OK csv_cama_texto))) /\
        t.*1 = map (shown_row (@load_data Sample.pandas (OK csv_cama_texto))) ordered ++
               map (shown_row (@load_data Sample.pandas (OK csv_cama_texto)))
                   (filter (fun r => isna (at_pos j r) = true)
                      (rows (@load_data Sample.pandas (OK csv_cama_texto))))
  | Raise _ => False
  end.
Proof.
  destruct (@tabla_pacientes Sample.pandas (@load_data Sample.pandas (OK csv_cama_texto)))
    as [t|e] eqn:E.
  - exact (@tabla_pacientes_beds_first Sample.pandas _ t E).
  - vm_compute in E. discriminate.
Defined.

Lemma shown_row_cells_witness :
  match @tabla_pacientes Sample.pandas (@load_data Sample.pandas (OK csv_cama_texto)) with
  | OK t =>
      @bg_color Sample.pandas
        (shown_row (@load_data Sample.pandas (OK csv_cama_texto))
                   [NaN; Str "ONC"; Str "Luis"]) = "white"
  | Raise _ => False
  end.
Proof.
  destruct (@tabla_pacientes Sample.pandas (@load_data Sample.pandas (OK csv_cama_texto)))
    as [t|e] eqn:E.
  - destruct (@shown_row_cells Sample.pandas _ t [NaN; Str "ONC"; Str "Luis"] E)
      as (_ & _ & _ & Hwhite).
    apply Hwhite. reflexivity.
  - vm_compute in E. discriminate.
Defined.

(** ** Rows without a bed number in the patient table *)

Lemma cols_NoDup df : NoDup (cols df).
Proof.
  apply NoDup_filter. unfold cols_wanted.
  repeat (apply NoDup_cons; split;
          [intros Hin; apply list_elem_of_In in Hin; simpl in Hin;
           repeat (destruct Hin as [Hin|Hin]; [discriminate|]); exact Hin|]).
  apply NoDup_nil_2.
Qed.

Lemma flat_map_one_each (pos : string -> list nat) labels :
  (forall c, c ∈ labels -> exists i, pos c = [i]) ->
  flat_map (fun c => map (fun _ => c) (pos c)) labels = labels.
Proof.
  induction labels as [|c labels IH]; intros Hone; [reflexivity|].
  cbn [flat_map]. destruct (Hone c) as [i ->]; [constructor|].
  simpl. f_equal. apply IH. intros c' Hc'. apply Hone. now constructor.
Qed.

Section SinCama.
Context `{Pandas}.

(** The patient table is built for every frame with one CAMA column
    without texts in which no shown label is carried by two columns. *)
Lemma tabla_pacientes_total df j :
  positions "CAMA" df = [j] ->
  (forall r, r ∈ rows df -> at_pos j r = NaN \/ exists x, at_pos j r = Num x) ->
  (forall c, c ∈ cols_wanted -> (length (positions c df) <= 1)%nat) ->
  exists t, tabla_pacientes df = OK t.
Proof.
  intros Ej Hnum Hone. unfold tabla_pacientes, sort_values. rewrite Ej.
  assert (forallb (fun r => is_num (at_pos j r))
            (filter (fun r => isna (at_pos j r) = false) (rows df)) = true) as ->.
  { apply forallb_forall. intros r Hr.
    apply list_elem_of_In, list_elem_of_filter in Hr as [Hna Hr].
    destruct (Hnum r Hr) as [E|[x E]]; rewrite E in *; [discriminate|reflexivity]. }
  cbn [orb mbind result_bind].
  match goal with
  | |- context [select (cols df) ?d] => rewrite (select_sorted (cols df) d df eq_refl)
  end.
  assert (flat_map (fun c => map (fun _ => c) (positions c df)) (cols df) = cols df)
    as Ecols.
  { apply (flat_map_one_each (fun c => positions c df)).
    intros c Hc. apply elem_of_cols in Hc as [Hw Hc]. specialize (Hone c Hw).
    unfold has_column in Hc.
    destruct (positions c df) as [|i [|i' js]]; [discriminate|eauto|simpl in Hone; lia]. }
  destruct (bool_decide _) eqn:End; [eauto|].
  apply bool_decide_eq_false in End. exfalso. apply End.
  unfold columns. cbn [schema]. fold (columns (select (cols df) df)).
  rewrite columns_select, Ecols. apply cols_NoDup.
Qed.

End SinCama.

(** C5, as the program has it: a row with a patient whose bed cell is empty
    or a text that is not a number is loaded without error with NaN for its
    bed; the occupied set is the one of the rows that have a bed, among which
    this row is not; the row is in every patient table the page draws; and
    when no shown label is carried by two columns the patient table is built
    with the row in it, and drawn once the two specialty counts and the free
    beds are computed. *)
Theorem bed_without_number_is_absent `{Pandas}
    (df0 : DataFrame) (j : nat) (r0 : list cell) :
  positions "CAMA" (clean_columns df0) = [j] ->
  r0 ∈ rows df0 ->
  (forall i, i ∈ positions "PACIENTE" (clean_columns df0) -> at_pos i r0 <> NaN) ->
  (at_pos j r0 = NaN \/ exists s, at_pos j r0 = Str s /\ str_to_number s = None) ->
  let df := load_data (OK df0) in
  let r := alter to_numeric j r0 in
  load_body (OK df0) = OK df /\
  r ∈ rows df /\
  at_pos j r = NaN /\
  camas_ocupadas df = camas_ocupadas (with_bed j df) /\
  (r ∉ rows (with_bed j df)) /\
  (forall t, dataframe_pacientes t ∈ (app (OK df0)).1 -> shown_row df r ∈ t.*1) /\
  ((forall c, c ∈ cols_wanted -> (length (positions c df) <= 1)%nat) ->
   exists t,
     tabla_pacientes df = OK t /\
     shown_row df r ∈ t.*1 /\
     forall h o l,
       hem_count df = OK h -> onc_count df = OK o -> camas_libres df = OK l ->
       dataframe_pacientes t ∈ (app (OK df0)).1).
Proof.
  intros Ej Hr0 Hpac Hbed df r.
  assert (load_body (OK df0) =
          OK (mkDataFrame
                (alter (fun ct => (ct.1, dt_numeric)) j (schema (after_dropna df0)))
                (map (alter to_numeric j) (rows (after_dropna df0))))) as Eb.
  { rewrite load_body_read. unfold has_column, coerce_column.
    now rewrite positions_after_dropna, Ej. }
  assert (df = mkDataFrame
                (alter (fun ct => (ct.1, dt_numeric)) j (schema (after_dropna df0)))
                (map (alter to_numeric j) (rows (after_dropna df0)))) as Edf
    by (unfold df, load_data; now rewrite Eb).
  assert (positions "CAMA" df = [j]) as Ejdf.
  { rewrite Edf. unfold positions, columns. simpl. rewrite fst_alter_dtype.
    change (positions "CAMA" (after_dropna df0) = [j]).
    now rewrite positions_after_dropna. }
  assert (r ∈ rows df) as Hr.
  { rewrite Edf. simpl. apply list_elem_of_fmap. exists r0. split; [reflexivity|].
    apply rows_after_dropna. auto. }
  assert (at_pos j r = NaN) as Hnan.
  { unfold r. rewrite at_pos_alter by reflexivity.
    destruct Hbed as [->|(s & -> & Es)]; simpl; [reflexivity | now rewrite Es]. }
  split; [now rewrite Eb, Edf|]. split; [exact Hr|]. split; [exact Hnan|].
  split; [now apply camas_ocupadas_with_bed|]. split; [|split].
  - unfold with_bed. simpl. rewrite list_elem_of_filter, Hnan. intros [? _]. discriminate.
  - intros t Ht. apply interfaz_draws in Ht. now apply tabla_pacientes_rows.
  - intros Hone.
    destruct (tabla_pacientes_total df j Ejdf) as [t Et]; [|exact Hone|].
    { pose proof (loaded_CAMA_cases (OK df0)) as Hl.
      change (load_data (OK df0)) with df in Hl.
      destruct Hl as [E|(j' & Ej' & _ & Hnum)]; [rewrite E in Ejdf; discriminate|].
      rewrite Ejdf in Ej'. injection Ej' as <-. exact Hnum. }
    exists t. split; [exact Et|]. split; [now apply tabla_pacientes_rows|].
    intros h o l Eh Eo El. apply (interfaz_draws_table _ h o l); auto.
    exact (is_empty_false _ _ _ _ Hr Ejdf).
Qed.

(** The page of the sheet with a bed given as a word draws the patient
    table, with the row of that bed in it. *)
Lemma bed_without_number_is_absent_witness :
  let df := @load_data Sample.pandas (OK csv_cama_texto) in
  [NaN; Str "ONC"; Str "Luis"] ∈ rows df /\
  @camas_ocupadas Sample.pandas df = OK {[621]} /\
  exists t,
    dataframe_pacientes t ∈ (@app Sample.pandas (OK csv_cama_texto)).1 /\
    [("CAMA", NaN); ("ESP", Str "ONC"); ("PACIENTE", Str "Luis")] ∈ t.*1.
Proof.
  intros df.
  destruct (@bed_without_number_is_absent Sample.pandas csv_cama_texto 0%nat
              [Str "pendiente"; Str "ONC"; Str "Luis"])
    as (_ & Hr & _ & Ho & _ & _ & Ht).
  - reflexivity.
  - apply list_elem_of_In. simpl. tauto.
  - intros i Hi. apply list_elem_of_In in Hi. simpl in Hi.
    destruct Hi as [<-|[]]. discriminate.
  - right. exists "pendiente". split; reflexivity.
  - split; [exact Hr|]. split; [fold df in Ho; rewrite Ho; reflexivity|].
    destruct Ht as (t & _ & Hin & Hdraw).
    + intros c Hc. apply list_elem_of_In in Hc. simpl in Hc.
      repeat (destruct Hc as [<-|Hc]; [vm_compute; lia|]). contradiction.
    + exists t. split; [|exact Hin].
      apply (Hdraw 1%nat 1%nat (sorted (elements (rango_camas ∖ {[621%Z]}))));
        reflexivity.
Defined.

(** On a sheet without an ESP column the row without a bed is loaded, but
    the page stops with [KeyError] before it draws anything: no patient table
    shows the row. *)
Lemma row_without_bed_is_not_drawn :
  let df := @load_data Sample.pandas (OK csv_sin_esp) in
  positions "CAMA" df = [0%nat] /\
  [NaN; Str "Luis"] ∈ rows df /\
  at_pos 0 [NaN; Str "Luis"] = NaN /\
  @app Sample.pandas (OK csv_sin_esp) = ([], Raise KeyError) /\
  forall t, dataframe_pacientes t ∉ (@app Sample.pandas (OK csv_sin_esp)).1.
Proof.
  cbv zeta. split; [reflexivity|]. split; [|split; [reflexivity|split; [reflexivity|]]].
  - apply list_elem_of_In. simpl. tauto.
  - intros t Hin. inversion Hin.
Qed.

(** ** The doctor table at its edges *)

Lemma tally_step_nil_inv acc c : tally_step acc c = [] -> acc = [] /\ isna c = true.
Proof.
  unfold tally_step. destruct (isna c); [auto|].
  destruct acc as [|[k n] acc]; simpl; [discriminate|].
  destruct (cell_eqb k c); discriminate.
Qed.

Lemma fold_tally_nil vs acc :
  fold_left tally_step vs acc = [] <-> acc = [] /\ Forall (fun c => isna c = true) vs.
Proof.
  revert acc. induction vs as [|c vs IH]; intros acc; cbn [fold_left].
  - split; [intros ->; auto | tauto].
  - rewrite IH. split.
    + intros [E Hall]. apply tally_step_nil_inv in E as [-> Ec]. auto.
    + intros [-> Hall]. apply Forall_cons in Hall as [Ec Hall].
      unfold tally_step. rewrite Ec. auto.
Qed.

Lemma tally_nil vs : tally vs = [] <-> Forall (fun c => isna c = true) vs.
Proof. unfold tally. rewrite fold_tally_nil. tauto. Qed.

Section MedicosEdges.
Context `{Pandas}.

(** X13: without a MEDICO column there is no doctor table (the page shows a
    warning instead); with one MEDICO column in which no row names a doctor
    the scale of the table cannot be computed and [ValueError] is raised,
    after the patient table has been drawn; as soon as one row names a doctor
    the table is computed, is not empty, and its scale exceeds every count by
    at least 2. *)
Theorem tabla_medicos_edges (df : DataFrame) :
  (has_column "MEDICO" df = false -> tabla_medicos df = OK None) /\
  (forall j, positions "MEDICO" df = [j] ->
     (forall r, r ∈ rows df -> at_pos j r = NaN) ->
     tabla_medicos df = Raise ValueError /\
     forall h o l t,
       is_empty df = false ->
       hem_count df = OK h -> onc_count df = OK o -> camas_libres df = OK l ->
       tabla_pacientes df = OK t ->
       (interfaz df).2 = Raise ValueError /\ dataframe_pacientes t ∈ (interfaz df).1) /\
  (forall j r, positions "MEDICO" df = [j] -> r ∈ rows df -> at_pos j r <> NaN ->
     exists conteo max_value,
       tabla_medicos df = OK (Some (conteo, max_value)) /\
       conteo <> [] /\
       forall k n, (k, n) ∈ conteo -> Z.of_nat n + 2 <= max_value).
Proof.
  split; [|split].
  - intros E. unfold tabla_medicos. now rewrite E.
  - intros j Ej Hall.
    assert (tabla_medicos df = Raise ValueError) as Et.
    { unfold tabla_medicos, getitem, has_column. rewrite Ej. cbn.
      assert (tally (map (at_pos j) (rows df)) = []) as En.
      { apply tally_nil, Forall_forall. intros c Hc.
        apply list_elem_of_fmap in Hc as (r & -> & Hr). now rewrite (Hall r Hr). }
      pose proof (value_counts_perm
                    (default dt_object ((schema df).*2 !! j),
                     map (at_pos j) (rows df))) as Hp.
      cbn [snd] in Hp. rewrite En in Hp. apply Permutation_nil_r in Hp.
      now rewrite Hp. }
    split; [exact Et|]. intros h o l t Ee Eh Eo El Etab. split.
    + unfold interfaz. rewrite Ee, Eh, Eo, El, Etab, Et. cbn. now destruct l.
    + now apply (interfaz_draws_table _ h o l).
  - intros j r Ej Hr Hna.
    unfold tabla_medicos, getitem, has_column. rewrite Ej. cbn.
    pose proof (value_counts_perm
                  (default dt_object ((schema df).*2 !! j),
                   map (at_pos j) (rows df))) as Hp.
    cbn [snd] in Hp.
    destruct (value_counts _) as [|kn c] eqn:Ec.
    + exfalso. symmetry in Hp. apply Permutation_nil_r, tally_nil in Hp.
      rewrite Forall_forall in Hp.
      assert (isna (at_pos j r) = true) as Hn
        by (apply Hp, list_elem_of_fmap; eauto).
      destruct (at_pos j r); [contradiction|discriminate|discriminate].
    + eexists _, _. split; [reflexivity|]. split; [discriminate|].
      intros k n Hin.
      assert (n ∈ (kn :: c).*2) as Hn
        by (apply list_elem_of_fmap; exists (k, n); auto).
      apply max_list_elem_of_le in Hn. lia.
Qed.

End MedicosEdges.

Lemma tabla_medicos_edges_witness :
  @tabla_medicos Sample.pandas (@load_data Sample.pandas (OK csv_sin_medicos))
    = Raise ValueError /\
  (@app Sample.pandas (OK csv_sin_medicos)).2 = Raise ValueError.
Proof.
  destruct (@tabla_medicos_edges Sample.pandas
              (@load_data Sample.pandas (OK csv_sin_medicos))) as (_ & Hnan & _).
  destruct (Hnan 3%nat eq_refl) as [Hraise Hpage].
  - intros r Hr. apply list_elem_of_In in Hr. simpl in Hr.
    destruct Hr as [<-|[]]. reflexivity.
  - split; [exact Hraise|].
    destruct (@tabla_pacientes Sample.pandas (@load_data Sample.pandas (OK csv_sin_medicos)))
      as [t|e] eqn:Et; [|vm_compute in Et; discriminate].
    refine (proj1 (Hpage 1%nat 0%nat _ t eq_refl eq_refl eq_refl eq_refl eq_refl)).
Defined.

(** ** Loading a loaded table *)

(** A header that was cleaned is left as it is by a second cleaning. *)
Lemma clean_name_idem `{Pandas} c :
  rename_map (str_upper (str_strip (rename_map (str_upper (str_strip c)))))
  = rename_map (str_upper (str_strip c)).
Proof.
  destruct (rename_map_cases (str_upper (str_strip c)))
    as [[_ ->]|[[_ ->]|[[_ ->]|(_ & _ & _ & E)]]];
    try (rewrite clean_name_ascii by reflexivity; reflexivity).
  rewrite E, str_strip_upper, str_upper_idem. exact E.
Qed.

Lemma clean_columns_fixed `{Pandas} df :
  Forall (fun c => rename_map (str_upper (str_strip c)) = c) (columns df) ->
  clean_columns df = df.
Proof.
  destruct df as [sch rs]. unfold clean_columns, columns. simpl. intros Hall.
  f_equal. induction sch as [|[c t] sch IH]; [reflexivity|].
  apply Forall_cons in Hall as [Hc Hall]. simpl in *. now rewrite Hc, IH.
Qed.

Lemma to_numeric_idem `{Pandas} c : to_numeric (to_numeric c) = to_numeric c.
Proof.
  destruct c as [|x|s]; simpl; try reflexivity.
  destruct (str_to_number s); reflexivity.
Qed.

Section Reload.
Context `{Pandas}.

Lemma columns_load_body df0 df :
  load_body (OK df0) = OK df -> columns df = columns (clean_columns df0).
Proof.
  rewrite load_body_read. unfold coerce_column.
  destruct (has_column "CAMA" (after_dropna df0)).
  - destruct (positions "CAMA" (after_dropna df0)) as [|j [|? ?]]; try discriminate.
    intros [= <-]. unfold columns at 1. simpl. rewrite fst_alter_dtype.
    apply columns_after_dropna.
  - intros [= <-]. apply columns_after_dropna.
Qed.

Lemma rows_load_body_have_patient df0 df r i :
  load_body (OK df0) = OK df -> r ∈ rows df ->
  i ∈ positions "PACIENTE" df -> at_pos i r <> NaN.
Proof.
  intros Eb Hr Hi.
  assert (positions "PACIENTE" df = positions "PACIENTE" (clean_columns df0)) as Ep
    by (unfold positions; now rewrite (columns_load_body _ _ Eb)).
  rewrite Ep in Hi. revert Eb. rewrite load_body_read. unfold coerce_column.
  destruct (has_column "CAMA" (after_dropna df0)).
  - destruct (positions "CAMA" (after_dropna df0)) as [|j [|? ?]] eqn:Ej; try discriminate.
    intros [= <-]. simpl in Hr. apply list_elem_of_fmap in Hr as (r0 & -> & Hr0).
    apply rows_after_dropna in Hr0 as [_ Hr0].
    assert (j <> i) as Hne.
    { intros <-. apply elem_of_positions in Hi.
      assert (j ∈ positions "CAMA" (after_dropna df0)) as Hj by (rewrite Ej; constructor).
      rewrite positions_after_dropna in Hj. apply elem_of_positions in Hj. congruence. }
    rewrite at_pos_alter_ne by exact Hne. now apply Hr0.
  - intros [= <-]. apply rows_after_dropna in Hr as [_ Hr]. now apply Hr.
Qed.

(** X14: the loader leaves a table that it has loaded as it is: header,
    dtypes and rows of [load_data] applied to its own result are those of the
    result. *)
Theorem load_data_idempotent (csv : result DataFrame) :
  load_data (OK (load_data csv)) = load_data csv.
Proof.
  destruct (load_body csv) as [df|e] eqn:Eb.
  2:{ assert (load_data csv = empty_frame) as ->
        by (unfold load_data; now rewrite Eb).
      reflexivity. }
  assert (load_data csv = df) as -> by (unfold load_data; now rewrite Eb).
  destruct csv as [df0|e]; [|discriminate].
  assert (clean_columns df = df) as Ec.
  { apply clean_columns_fixed. rewrite (columns_load_body _ _ Eb), columns_clean_columns.
    apply Forall_forall. intros c Hc. apply list_elem_of_fmap in Hc as (c0 & -> & _).
    apply clean_name_idem. }
  assert (after_dropna df = df) as Ea.
  { unfold after_dropna. rewrite Ec. destruct (has_column "PACIENTE" df); [|reflexivity].
    unfold dropna_subset. destruct df as [sch rs] eqn:Edf. simpl. f_equal.
    apply filter_all. intros r Hr. apply forallb_forall. intros i Hi.
    apply list_elem_of_In in Hi.
    pose proof (rows_load_body_have_patient _ _ r i Eb Hr Hi) as Hn.
    now destruct (at_pos i r). }
  unfold load_data. rewrite load_body_read, Ea.
  revert Eb. rewrite load_body_read. unfold coerce_column.
  destruct (has_column "CAMA" (after_dropna df0)) eqn:Eh.
  - destruct (positions "CAMA" (after_dropna df0)) as [|j [|? ?]] eqn:Ej; try discriminate.
    intros [= <-].
    assert (positions "CAMA"
              {| schema := alter (fun ct => (ct.1, dt_numeric)) j (schema (after_dropna df0));
                 rows := map (alter to_numeric j) (rows (after_dropna df0)) |} = [j]) as Ej'
      by (unfold positions, columns; simpl; now rewrite fst_alter_dtype).
    unfold has_column. rewrite Ej'. simpl. f_equal.
    + rewrite list_alter_alter_eq. now apply list_alter_ext.
    + rewrite map_map. apply map_ext. intros r.
      rewrite list_alter_alter_eq. apply list_alter_ext; [|reflexivity].
      intros c _. apply to_numeric_idem.
  - intros [= <-]. now rewrite Eh.
Qed.

End Reload.

(** ** Free beds against the rows of the table *)

Lemma size_list_to_set_le (zs : list Z) :
  (size (list_to_set zs : gset Z) <= length zs)%nat.
Proof.
  induction zs as [|z zs IH].
  - change (list_to_set [] : gset Z) with (∅ : gset Z). now rewrite size_empty.
  - change (list_to_set (z :: zs) : gset Z) with ({[z]} ∪ list_to_set zs : gset Z).
    cbn [length]. rewrite size_union_alt, size_singleton.
    pose proof (subseteq_size (list_to_set zs ∖ {[z]}) (list_to_set zs : gset Z)) as Hle.
    assert (size (list_to_set zs ∖ {[z]} : gset Z) <= size (list_to_set zs : gset Z))%nat
      by (apply Hle; intros x Hx; now apply elem_of_difference in Hx as [? _]).
    lia.
Qed.

Section Beds.
Context `{Pandas}.

Lemma camas_ocupadas_size df ocupadas :
  camas_ocupadas df = OK ocupadas -> (size ocupadas <= len df)%nat.
Proof.
  unfold camas_ocupadas. intros Ho.
  destruct (getitem "CAMA" df AttributeError) as [s|e] eqn:Eg; [|discriminate].
  apply getitem_OK in Eg as (j & _ & _ & Ev). revert Ho. cbn. rewrite Ev.
  destruct (astype_int_all _) as [zs|e] eqn:Ez; cbn; [|discriminate].
  intros [= <-]. apply astype_int_all_OK, Forall2_length in Ez.
  pose proof (size_list_to_set_le zs) as H1.
  pose proof (length_filter (fun c => isna c = false) (map (at_pos j) (rows df))) as H2.
  rewrite length_map in H2. unfold len. lia.
Qed.

(** X15: the free beds and the rows of the table together are at least the
    22 beds of the range: each row takes at most one bed away. *)
Theorem camas_libres_at_least (df : DataFrame) (l : list Z) :
  camas_libres df = OK l -> (22 <= length l + len df)%nat.
Proof.
  intros Hl. pose proof Hl as Hl'. apply camas_libres_OK in Hl' as (o & Ho & ->).
  assert (length (sorted (elements (rango_camas ∖ o))) = size (rango_camas ∖ o)) as El
    by (now rewrite sorted_perm).
  rewrite El, size_difference_alt, size_rango_camas.
  pose proof (camas_ocupadas_size df o Ho) as H1.
  pose proof (subseteq_size (rango_camas ∩ o) o) as H2.
  assert (size (rango_camas ∩ o) <= size o)%nat
    by (apply H2; intros z Hz; now apply elem_of_intersection in Hz as [_ ?]).
  lia.
Qed.

(** X16: when every bed of the table is empty or a finite number within
    int64, a bed of the range is listed as free exactly when no row has a
    bed number whose integer part (cut toward zero) is that bed. *)
Theorem bed_is_free_iff_no_row_has_it (df : DataFrame) (j : nat) (l : list Z) :
  positions "CAMA" df = [j] ->
  (forall r, r ∈ rows df ->
     at_pos j r = NaN \/
     exists q, at_pos j r = Num (Fin q) /\ fits_int64 (trunc q) = true) ->
  camas_libres df = OK l ->
  forall z, z ∈ l <->
    621 <= z <= 642 /\
    ~ exists r q, r ∈ rows df /\ at_pos j r = Num (Fin q) /\ trunc q = z.
Proof.
  intros Ej Hbeds Hl z. apply camas_libres_OK in Hl as (o & Ho & ->).
  rewrite elem_of_libres.
  apply camas_ocupadas_spec in Ho as (j' & Ej' & Hspec).
  rewrite Ej in Ej'. injection Ej' as <-.
  assert (z ∈ o <-> exists r q, r ∈ rows df /\ at_pos j r = Num (Fin q) /\ trunc q = z)
    as Hiff.
  { rewrite Hspec. split.
    - intros (r & Hr & Hna & Hz). destruct (Hbeds r Hr) as [E|(q & E & Hfit)];
        rewrite E in *; [discriminate|].
      simpl in Hz. rewrite Hfit in Hz. injection Hz as <-. eauto.
    - intros (r & q & Hr & E & <-). exists r. split; [exact Hr|].
      destruct (Hbeds r Hr) as [E'|(q' & E' & Hfit)]; rewrite E in E';
        [discriminate|]. injection E' as <-.
      rewrite E. simpl. now rewrite Hfit. }
  rewrite Hiff. tauto.
Qed.

End Beds.

Lemma camas_libres_at_least_witness :
  (22 <= length (sorted (elements (rango_camas ∖ {[621%Z]})))
         + len (@load_data Sample.pandas (OK csv_cama_texto)))%nat.
Proof.
  apply (@camas_libres_at_least Sample.pandas). reflexivity.
Defined.

Lemma bed_is_free_iff_no_row_has_it_witness :
  622 ∈ sorted (elements (rango_camas ∖ {[621]})).
Proof.
  apply (@bed_is_free_iff_no_row_has_it Sample.pandas
           (@load_data Sample.pandas (OK csv_cama_texto)) 0%nat).
  - reflexivity.
  - intros r Hr. apply list_elem_of_In in Hr. simpl in Hr.
    destruct Hr as [<-|[<-|[]]]; [right; eexists; split; reflexivity | now left].
  - reflexivity.
  - split; [lia|]. intros (r & q & Hr & E & Hq).
    apply list_elem_of_In in Hr. simpl in Hr.
    destruct Hr as [<-|[<-|[]]]; [|discriminate].
    injection E as <-. vm_compute in Hq. discriminate.
Defined.

Lemma sin_camas_only_when_full_witness :
  @camas_libres Sample.pandas (@load_data Sample.pandas (OK csv_bed_700))
    = OK (sorted (elements (rango_camas ∖ {[700]}))) /\
  sorted (elements (rango_camas ∖ {[700]})) <> [].
Proof.
  destruct (@sin_camas_only_when_full Sample.pandas
              (@load_data Sample.pandas (OK csv_bed_700))) as (_ & _ & Hbox).
  apply Hbox. apply list_elem_of_In. do 5 right. left. reflexivity.
Defined.
